(** * go-misc: the GitHub command-line utilities

  A shallow embedding of the three [package main] programs of the
  repository:

  - [ClosePRGraphQL]: the close-PR command that talks to the GraphQL API
    through [githubv4] (it has the [-strict] flag);
  - [ClosePRRest]: [github-close-pr/main.go], the close-PR command that
    talks to the REST API through [go-github];
  - [ListPR]: [github-list-pr/main.go], the paginated search listing.

  Every program is a sequence of calls to a remote API with fatal exits
  in between.  A run is modelled in a small state monad: the state is
  what the process has done so far (remote calls, log lines, text sent to
  the standard streams) and a computation either goes on, returns from
  [main], or stops the process through [log.Fatal].  The remote API is an
  argument of each program: a function from the calls made so far and the
  new request to the answer, so that a theorem quantified over it speaks
  of every behaviour of the remote side. *)

From Stdlib Require Import String Ascii List ZArith Lia Bool.
From Stdlib Require Import DecimalString.
Import ListNotations.

Local Open Scope string_scope.
Local Open Scope Z_scope.

(** ** The Go runtime and standard library, as far as the programs use them *)

Module Go.

(** A Go [error]: [None] is [nil], [Some msg] carries [err.Error()]. *)
Definition error := option string.

(** [%d] of an [int]. *)
Definition itoa (n : Z) : string := NilZero.string_of_int (Z.to_int n).

(** [int] is 64 bits wide on the platforms the commands are built for. *)
Definition int_min : Z := - 2 ^ 63.
Definition int_max : Z := 2 ^ 63 - 1.

Definition digit_of (c : ascii) : option Z :=
  let n := Z.of_nat (nat_of_ascii c) in
  if (48 <=? n) && (n <=? 57) then Some (n - 48) else None.

Fixpoint digits_value (s : string) (acc : Z) : option Z :=
  match s with
  | EmptyString => Some acc
  | String c rest =>
      match digit_of c with
      | Some d => digits_value rest (acc * 10 + d)
      | None => None
      end
  end.

(** [strconv.Atoi]: an optional sign, then at least one decimal digit and
    nothing else; [None] stands for a non-nil error (bad syntax, or a value
    out of the range of [int]). *)
Definition Atoi (s : string) : option Z :=
  match s with
  | EmptyString => None
  | String c rest =>
      let neg := Ascii.eqb c "-" in
      let ds := if neg || Ascii.eqb c "+" then rest else s in
      match ds with
      | EmptyString => None
      | _ =>
          match digits_value ds 0 with
          | Some n =>
              let v := if neg then - n else n in
              if (int_min <=? v) && (v <=? int_max) then Some v else None
          | None => None
          end
      end
  end.

(** The conversion [int32(n)] of an [int]: the low 32 bits, signed. *)
Definition to_int32 (n : Z) : Z := (n + 2 ^ 31) mod 2 ^ 32 - 2 ^ 31.

Section Process.

(** The type of remote calls is the program's own. *)
Context {Call : Type}.

(** What a process has done so far.  A log entry is the text handed to
    the [log] package, without the time stamp the logger puts in front
    and without the final newline. *)
Record World : Type := mkWorld {
  calls  : list Call;      (* remote calls, oldest first *)
  logged : list string;    (* entries written by the log package *)
  errout : list string;    (* text written to os.Stderr by fmt.Fprint *)
  printed : list string    (* format strings given to fmt.Printf *)
}.

Definition start : World := mkWorld [] [] [] [].

(** How a piece of [main] ends: it falls through to the next statement,
    it executes [return], or the process is stopped by [os.Exit(1)]
    inside [log.Fatal]. *)
Inductive Step (A : Type) : Type :=
| Next (a : A)
| Return
| Fatal.
Arguments Next {A} a.
Arguments Return {A}.
Arguments Fatal {A}.

Definition Proc (A : Type) : Type := World -> Step A * World.

Definition ret {A} (a : A) : Proc A := fun w => (Next a, w).

Definition bind {A B} (m : Proc A) (k : A -> Proc B) : Proc B :=
  fun w =>
    match m w with
    | (Next a, w') => k a w'
    | (Return, w') => (Return, w')
    | (Fatal, w') => (Fatal, w')
    end.

(** The [return] statement of [main]. *)
Definition return_ {A} : Proc A := fun w => (Return, w).

(** An [if] without [else]. *)
Definition when (b : bool) (m : Proc unit) : Proc unit :=
  if b then m else ret tt.

Definition log_Print (msg : string) : Proc unit :=
  fun w => (Next tt, mkWorld (calls w) (logged w ++ [msg]) (errout w) (printed w)).

(** [log.Fatal] and [log.Fatalf]: the entry is written, then [os.Exit(1)]. *)
Definition log_Fatal {A} (msg : string) : Proc A :=
  fun w => (Fatal, mkWorld (calls w) (logged w ++ [msg]) (errout w) (printed w)).

(** [if err != nil { log.Fatalf(...) }], the message built from the error. *)
Definition fatal_on (err : error) (msg : string -> string) : Proc unit :=
  match err with
  | Some e => log_Fatal (msg e)
  | None => ret tt
  end.

Definition fmt_Fprint_Stderr (text : string) : Proc unit :=
  fun w => (Next tt, mkWorld (calls w) (logged w) (errout w ++ [text]) (printed w)).

(** [fmt.Printf(format)] without operands: the call is recorded with its
    format string. *)
Definition fmt_Printf (format : string) : Proc unit :=
  fun w => (Next tt, mkWorld (calls w) (logged w) (errout w) (printed w ++ [format])).

(** What [fmt.Printf] writes for a format without operands: the format
    itself when it has no [%].  The expansion of verbs is not modelled: a
    format with a [%] gives [None]. *)
Fixpoint has_verb (format : string) : bool :=
  match format with
  | EmptyString => false
  | String c rest => Ascii.eqb c "%" || has_verb rest
  end.

Definition Printf_text (format : string) : option string :=
  if has_verb format then None else Some format.

(** A remote call: the answer may depend on every call made before. *)
Definition remote {R} (answer : list Call -> R) (c : Call) : Proc R :=
  fun w => (Next (answer (calls w)),
            mkWorld (calls w ++ [c]) (logged w) (errout w) (printed w)).

(** The exit status of the process. *)
Definition status {A} (s : Step A) : Z :=
  match s with
  | Next _ => 0
  | Return => 0
  | Fatal => 1
  end.

End Process.

Arguments World : clear implicits.
Arguments Step : clear implicits.
Arguments Proc : clear implicits.
Arguments Next {A} a.
Arguments Return {A}.
Arguments Fatal {A}.

Module Notations.
Notation "x <- m ;; k" := (bind m (fun x => k))
  (at level 61, m at next level, right associativity).
Notation "m ;; k" := (bind m (fun _ => k))
  (at level 61, right associativity).
End Notations.

End Go.

Import Go.Notations.

(** ** The close-PR command on the GraphQL API (the variant with [-strict]) *)

Module ClosePRGraphQL.
Import Go.

Definition usage : string :=
"Usage: github-close-pr [options...] OWNER REPO NUMBER

Options:
  -close-comment string  Close comment
  -delete-branch bool    Delete the branch associated with the PR
  -strict        bool    Fail if the PR is not open
".

(** The nested structs of [PullRequest] all have the shape [{ID; Name}]. *)
Record Named : Type := mkNamed { ID_ : string; Name : string }.

Record PullRequest : Type := mkPullRequest {
  ID : string;
  Number : Z;
  Title : string;
  State : string;
  BaseRepository : Named;
  HeadRef : Named;
  HeadRepository : Named
}.

(** The requests the command sends: the query of [getPRIDByNumber] with its
    three variables, and the inputs of the three mutations. *)
Inductive Call : Type :=
| QueryPullRequest (owner repo : string) (pr_number : Z)
| AddComment (SubjectID Body : string)
| ClosePullRequest (PullRequestID : string)
| DeleteRef (RefID : string).

Definition is_mutation (c : Call) : bool :=
  match c with
  | QueryPullRequest _ _ _ => false
  | _ => true
  end.

(** The [githubv4] client with the remote side behind it.  [Query] fills the
    response struct or reports an error; [Mutate] reports an error or
    [nil]. *)
Record Client : Type := mkClient {
  Query : list Call -> Call -> PullRequest + string;
  Mutate : list Call -> Call -> error
}.

(** The environment variable, the parsed flags and [flag.Args()]. *)
Record Invocation : Type := mkInvocation {
  GITHUB_TOKEN : string;
  closeCommentFlag : string;
  deleteBranchFlag : bool;
  strictFlag : bool;
  args : list string
}.

Definition getPRIDByNumber (v4 : Client) (owner repo : string) (number : Z)
  : Proc Call (PullRequest + string) :=
  let q := QueryPullRequest owner repo (to_int32 number) in
  remote (fun h => Query v4 h q) q.

Definition closePR (v4 : Client) (id : string) : Proc Call error :=
  let m := ClosePullRequest id in
  remote (fun h => Mutate v4 h m) m.

Definition commentOnPR (v4 : Client) (id body : string) : Proc Call error :=
  let m := AddComment id body in
  remote (fun h => Mutate v4 h m) m.

Definition deleteRef (v4 : Client) (id : string) : Proc Call error :=
  let m := DeleteRef id in
  remote (fun h => Mutate v4 h m) m.

(** The statements of [main] from the test of the state on (the steps on
    the pull request that the lookup has returned). *)
Definition workflow (inv : Invocation) (v4 : Client) (prNumber : Z)
  (pr : PullRequest) : Proc Call unit :=
  let closeComment := closeCommentFlag inv in
  let deleteBranch := deleteBranchFlag inv in
  let strict := strictFlag inv in
  when (negb (String.eqb (State pr) "OPEN"))
    (when strict
       (log_Fatal ("[ERROR] PR " ++ itoa prNumber
                   ++ " is not open - not attempting any action")) ;;
     log_Print ("[WARN] PR " ++ itoa prNumber
                ++ " is not open - not attempting any action") ;;
     return_) ;;
  when (negb (String.eqb closeComment ""))
    (err <- commentOnPR v4 (ID pr) closeComment ;;
     fatal_on err (fun e => "[ERROR] Failed to comment on PR "
                            ++ itoa prNumber ++ ": " ++ e)) ;;
  err <- closePR v4 (ID pr) ;;
  fatal_on err (fun e => "[ERROR] Failed to close PR "
                         ++ itoa prNumber ++ ": " ++ e) ;;
  log_Print ("[INFO] Successfully closed PR " ++ itoa prNumber) ;;
  when (negb deleteBranch) return_ ;;
  when (negb (String.eqb (ID_ (HeadRepository pr)) (ID_ (BaseRepository pr))))
    (log_Print ("[WARN] PR head repository " ++ Name (HeadRepository pr)
                ++ " and base repository " ++ Name (BaseRepository pr)
                ++ " are different - not attempting to delete PR branch") ;;
     return_) ;;
  err <- deleteRef v4 (ID_ (HeadRef pr)) ;;
  fatal_on err (fun e => "[ERROR] Failed to delete ref "
                         ++ Name (HeadRef pr) ++ ": " ++ e) ;;
  log_Print ("[INFO] Successfully deleted ref " ++ Name (HeadRef pr)).

(** [main]: the token, the arguments and the lookup, then [workflow]. *)
Definition main (inv : Invocation) (v4 : Client) : Proc Call unit :=
  let token := GITHUB_TOKEN inv in
  when (Nat.eqb (String.length token) 0)
    (log_Fatal "[ERROR] Environment variable GITHUB_TOKEN must be set") ;;
  let args := args inv in
  when (negb (Nat.eqb (List.length args) 3))
    (log_Print "[ERROR] Invalid argument" ;;
     fmt_Fprint_Stderr usage ;;
     return_) ;;
  let owner := nth 0 args "" in
  let repo := nth 1 args "" in
  let number := nth 2 args "" in
  prNumber <-
    match Atoi number with
    | Some n =>
        if n <=? 0
        then log_Fatal ("[ERROR] PR number " ++ number
                        ++ " must be a valid positive number")
        else ret n
    | None => log_Fatal ("[ERROR] PR number " ++ number
                         ++ " must be a valid positive number")
    end ;;
  looked <- getPRIDByNumber v4 owner repo prNumber ;;
  pr <-
    match looked with
    | inl pr => ret pr
    | inr e => log_Fatal ("[ERROR] Failed to get PR ID for PR "
                          ++ itoa prNumber ++ ": " ++ e)
    end ;;
  workflow inv v4 prNumber pr.

(** A run from the empty history. *)
Definition run (inv : Invocation) (v4 : Client) : Step unit * World Call :=
  main inv v4 start.

(** *** Vocabulary for the statements about runs *)

(** The first request of a run that gets that far. *)
Definition lookup (owner repo : string) (prNumber : Z) : Call :=
  QueryPullRequest owner repo (to_int32 prNumber).

(** The invocation resolves a pull request: the token is set, the three
    arguments are there, the number is a positive integer, and the remote
    side answers the lookup with [pr]. *)
Definition resolves (inv : Invocation) (v4 : Client) (owner repo : string)
  (prNumber : Z) (pr : PullRequest) : Prop :=
  GITHUB_TOKEN inv <> "" /\
  (exists number,
      args inv = [owner; repo; number] /\ Atoi number = Some prNumber) /\
  0 < prNumber /\
  Query v4 [] (lookup owner repo prNumber) = inl pr.

(** The mutating calls of a run, in order. *)
Definition mutations (w : World Call) : list Call :=
  filter is_mutation (calls w).

(** The comment request of a run, when a close comment is given. *)
Definition comment_calls (inv : Invocation) (pr : PullRequest) : list Call :=
  if String.eqb (closeCommentFlag inv) "" then []
  else [AddComment (ID pr) (closeCommentFlag inv)].

(** The close mutation is reached and accepted: the pull request is open,
    the comment, if there is one, is accepted, and so is the close. *)
Definition close_accepted (inv : Invocation) (v4 : Client)
  (owner repo : string) (prNumber : Z) (pr : PullRequest) : Prop :=
  State pr = "OPEN" /\
  (closeCommentFlag inv <> "" ->
   Mutate v4 [lookup owner repo prNumber]
          (AddComment (ID pr) (closeCommentFlag inv)) = None) /\
  Mutate v4 (lookup owner repo prNumber :: comment_calls inv pr)
         (ClosePullRequest (ID pr)) = None.

(** The requests of a run up to and with the close. *)
Definition upto_close (inv : Invocation) (owner repo : string)
  (prNumber : Z) (pr : PullRequest) : list Call :=
  lookup owner repo prNumber
  :: comment_calls inv pr ++ [ClosePullRequest (ID pr)].

(** Every request a run on [pr] can send, in the order of [main]. *)
Definition planned (inv : Invocation) (owner repo : string) (prNumber : Z)
  (pr : PullRequest) : list Call :=
  lookup owner repo prNumber
  :: comment_calls inv pr
  ++ [ClosePullRequest (ID pr); DeleteRef (ID_ (HeadRef pr))].

End ClosePRGraphQL.


(** ** The close-PR command on the REST API ([github-close-pr/main.go]) *)

Module ClosePRRest.
Import Go.

Definition usage : string :=
"Usage: github-close-pr [options...] OWNER REPO NUMBER

Options:
  -close-comment string  Close comment
  -delete-branch bool    Delete the branch associated with the PR
".

(** The records of [go-github] that the command reads.  Their fields are
    pointers: [None] is [nil].  [Others] holds the fields of the library's
    [PullRequest] that the command never names, by field name. *)
Record Repository : Type := mkRepository {
  ID : option Z;
  FullName : option string
}.

Record PullRequestBranch : Type := mkPullRequestBranch {
  Ref : option string;
  Repo : option Repository
}.

Record PullRequest : Type := mkPullRequest {
  Number : option Z;
  State : option string;
  Title : option string;
  Body : option string;
  Head : option PullRequestBranch;
  Base : option PullRequestBranch;
  Others : list (string * string)
}.

(** The generated accessors: the zero value when a pointer on the way is
    [nil]. *)
Definition GetState (p : PullRequest) : string :=
  match State p with Some s => s | None => "" end.

Definition GetHead (p : PullRequest) : option PullRequestBranch := Head p.

Definition GetBase (p : PullRequest) : option PullRequestBranch := Base p.

Definition GetRepo (b : option PullRequestBranch) : option Repository :=
  match b with Some b' => Repo b' | None => None end.

Definition GetRef (b : option PullRequestBranch) : string :=
  match b with
  | Some b' => match Ref b' with Some r => r | None => "" end
  | None => ""
  end.

Definition GetID (r : option Repository) : Z :=
  match r with
  | Some r' => match ID r' with Some i => i | None => 0 end
  | None => 0
  end.

Definition GetFullName (r : option Repository) : string :=
  match r with
  | Some r' => match FullName r' with Some n => n | None => "" end
  | None => ""
  end.

(** The assignment [pr.State = github.String(s)] on the fetched record. *)
Definition set_State (p : PullRequest) (s : string) : PullRequest :=
  mkPullRequest (Number p) (Some s) (Title p) (Body p) (Head p) (Base p)
                (Others p).

(** The four service methods the command calls, with their arguments. *)
Inductive Call : Type :=
| PullRequests_Get (owner repo : string) (number : Z)
| Issues_CreateComment (owner repo : string) (number : Z) (Body : string)
| PullRequests_Edit (owner repo : string) (number : Z) (pull : PullRequest)
| Git_DeleteRef (owner repo : string) (ref : string).

Definition is_mutation (c : Call) : bool :=
  match c with
  | PullRequests_Get _ _ _ => false
  | _ => true
  end.

(** The [go-github] client with the remote side behind it: what [Get]
    returns, and the error of the other three methods. *)
Record Client : Type := mkClient {
  Get : list Call -> Call -> PullRequest + string;
  Do : list Call -> Call -> error
}.

Record Invocation : Type := mkInvocation {
  GITHUB_TOKEN : string;
  closeCommentFlag : string;
  deleteBranchFlag : bool;
  args : list string
}.

(** The statements of [main] from the test of the state on (the steps on
    the pull request that [Get] has returned). *)
Definition workflow (inv : Invocation) (client : Client)
  (owner repo : string) (prNumber : Z) (pr : PullRequest) : Proc Call unit :=
  let closeComment := closeCommentFlag inv in
  let deleteBranch := deleteBranchFlag inv in
  when (negb (String.eqb (GetState pr) "open"))
    (log_Fatal ("[ERROR] PR " ++ itoa prNumber ++ " is not open")) ;;
  when (negb (String.eqb closeComment ""))
    (err <- (let c := Issues_CreateComment owner repo prNumber closeComment in
             remote (fun h => Do client h c) c) ;;
     fatal_on err (fun e => "[ERROR] Failed to comment on PR "
                            ++ itoa prNumber ++ ": " ++ e)) ;;
  let pr := set_State pr "closed" in
  err <- (let c := PullRequests_Edit owner repo prNumber pr in
          remote (fun h => Do client h c) c) ;;
  fatal_on err (fun e => "[ERROR] Failed to close PR "
                         ++ itoa prNumber ++ ": " ++ e) ;;
  log_Print ("[INFO] Successfully closed PR " ++ itoa prNumber) ;;
  when (negb deleteBranch) return_ ;;
  let prBranchHead := GetHead pr in
  let prBranchBase := GetBase pr in
  when (negb (GetID (GetRepo prBranchHead) =? GetID (GetRepo prBranchBase)))
    (log_Print ("[WARN] PR head repository "
                ++ GetFullName (GetRepo prBranchHead)
                ++ " and base repository "
                ++ GetFullName (GetRepo prBranchBase)
                ++ " are different - not attempting to delete PR branch") ;;
     return_) ;;
  let ref := GetRef prBranchHead in
  err <- (let c := Git_DeleteRef owner repo ("heads/" ++ ref) in
          remote (fun h => Do client h c) c) ;;
  fatal_on err (fun e => "[ERROR] Failed to delete ref " ++ ref ++ ": " ++ e) ;;
  log_Print ("[INFO] Successfully deleted ref " ++ ref).

(** [main]: the token, the arguments and the lookup, then [workflow]. *)
Definition main (inv : Invocation) (client : Client) : Proc Call unit :=
  let token := GITHUB_TOKEN inv in
  when (Nat.eqb (String.length token) 0)
    (log_Fatal "[ERROR] Environment variable GITHUB_TOKEN must be set") ;;
  let args := args inv in
  when (negb (Nat.eqb (List.length args) 3))
    (log_Print "[ERROR] Invalid argument" ;;
     fmt_Fprint_Stderr usage ;;
     return_) ;;
  let owner := nth 0 args "" in
  let repo := nth 1 args "" in
  let number := nth 2 args "" in
  prNumber <-
    match Atoi number with
    | Some n =>
        if n <=? 0
        then log_Fatal ("[ERROR] PR number " ++ number
                        ++ " must be a valid positive number")
        else ret n
    | None => log_Fatal ("[ERROR] PR number " ++ number
                         ++ " must be a valid positive number")
    end ;;
  got <- (let c := PullRequests_Get owner repo prNumber in
          remote (fun h => Get client h c) c) ;;
  pr <-
    match got with
    | inl pr => ret pr
    | inr e => log_Fatal ("[ERROR] Failed to get PR " ++ itoa prNumber
                          ++ ": " ++ e)
    end ;;
  workflow inv client owner repo prNumber pr.

Definition run (inv : Invocation) (client : Client) : Step unit * World Call :=
  main inv client start.

(** *** Vocabulary for the statements about runs *)

Definition lookup (owner repo : string) (prNumber : Z) : Call :=
  PullRequests_Get owner repo prNumber.

(** The invocation resolves a pull request: the token is set, the three
    arguments are there, the number is a positive integer, and [Get]
    returns [pr]. *)
Definition resolves (inv : Invocation) (client : Client) (owner repo : string)
  (prNumber : Z) (pr : PullRequest) : Prop :=
  GITHUB_TOKEN inv <> "" /\
  (exists number,
      args inv = [owner; repo; number] /\ Atoi number = Some prNumber) /\
  0 < prNumber /\
  Get client [] (lookup owner repo prNumber) = inl pr.

Definition mutations (w : World Call) : list Call :=
  filter is_mutation (calls w).

Definition comment_calls (inv : Invocation) (owner repo : string)
  (prNumber : Z) : list Call :=
  if String.eqb (closeCommentFlag inv) "" then []
  else [Issues_CreateComment owner repo prNumber (closeCommentFlag inv)].

(** The record handed to [Edit]. *)
Definition edit (owner repo : string) (prNumber : Z) (pr : PullRequest)
  : Call :=
  PullRequests_Edit owner repo prNumber (set_State pr "closed").

(** The update is reached and accepted: the pull request is open, the
    comment, if there is one, is accepted, and so is the edit. *)
Definition close_accepted (inv : Invocation) (client : Client)
  (owner repo : string) (prNumber : Z) (pr : PullRequest) : Prop :=
  GetState pr = "open" /\
  (closeCommentFlag inv <> "" ->
   Do client [lookup owner repo prNumber]
      (Issues_CreateComment owner repo prNumber (closeCommentFlag inv))
   = None) /\
  Do client (lookup owner repo prNumber
             :: comment_calls inv owner repo prNumber)
     (edit owner repo prNumber pr) = None.

(** The requests of a run up to and with the update. *)
Definition upto_close (inv : Invocation) (owner repo : string)
  (prNumber : Z) (pr : PullRequest) : list Call :=
  lookup owner repo prNumber
  :: comment_calls inv owner repo prNumber ++ [edit owner repo prNumber pr].

(** Every request a run on [pr] can send, in the order of [main]. *)
Definition planned (inv : Invocation) (owner repo : string) (prNumber : Z)
  (pr : PullRequest) : list Call :=
  lookup owner repo prNumber
  :: comment_calls inv owner repo prNumber
  ++ [edit owner repo prNumber pr;
      Git_DeleteRef owner repo ("heads/" ++ GetRef (Head pr))].

End ClosePRRest.


(** ** Struct tags and JSON encoding, as far as [github-list-pr] uses them *)

Module Json.

Definition dquote : ascii := ascii_of_nat 34.
Definition backslash : ascii := ascii_of_nat 92.

(** *** [reflect.StructTag.Lookup] *)

Fixpoint skip_spaces (tag : string) : string :=
  match tag with
  | String c rest => if Ascii.eqb c " " then skip_spaces rest else tag
  | EmptyString => tag
  end.

(** A byte that may stand in a key: above the space, and not a colon, a
    quote or DEL. *)
Definition key_byte (c : ascii) : bool :=
  let n := nat_of_ascii c in
  Nat.ltb 32 n && negb (Ascii.eqb c ":") && negb (Ascii.eqb c dquote)
  && negb (Nat.eqb n 127).

(** The longest prefix of key bytes, and what follows it. *)
Fixpoint scan_key (tag : string) : string * string :=
  match tag with
  | String c rest =>
      if key_byte c
      then let (k, t) := scan_key rest in (String c k, t)
      else (EmptyString, tag)
  | EmptyString => (EmptyString, EmptyString)
  end.

(** After the opening quote: the text up to the closing quote (a backslash
    takes the next byte with it) and what follows the closing quote; [None]
    when the closing quote is missing. *)
Fixpoint scan_quoted (s : string) : option (string * string) :=
  match s with
  | EmptyString => None
  | String c rest =>
      if Ascii.eqb c dquote then Some (EmptyString, rest)
      else if Ascii.eqb c backslash then
        match rest with
        | EmptyString => None
        | String d rest' =>
            match scan_quoted rest' with
            | Some (v, t) => Some (String c (String d v), t)
            | None => None
            end
        end
      else
        match scan_quoted rest with
        | Some (v, t) => Some (String c v, t)
        | None => None
        end
  end.

Fixpoint has_byte (b : ascii) (s : string) : bool :=
  match s with
  | EmptyString => false
  | String c rest => Ascii.eqb c b || has_byte b rest
  end.

(** [strconv.Unquote] of a double-quoted value, given without its quotes.
    Escape sequences are not decoded here: a value with a backslash or a
    newline counts as malformed. *)
Definition Unquote (body : string) : option string :=
  if has_byte backslash body || has_byte (ascii_of_nat 10) body
  then None else Some body.

(** The loop of [Lookup]; every round consumes at least one byte of the
    tag, so its length is fuel enough. *)
Fixpoint Lookup_loop (fuel : nat) (tag key : string) : option string :=
  match fuel with
  | O => None
  | S fuel' =>
      let tag := skip_spaces tag in
      match tag with
      | EmptyString => None
      | _ =>
          let (name, after) := scan_key tag in
          match name, after with
          | String _ _, String c1 (String c2 quoted) =>
              if Ascii.eqb c1 ":" && Ascii.eqb c2 dquote then
                match scan_quoted quoted with
                | Some (body, tag') =>
                    if String.eqb key name
                    then Unquote body
                    else Lookup_loop fuel' tag' key
                | None => None
                end
              else None
          | _, _ => None
          end
      end
  end.

Definition Lookup (tag key : string) : option string :=
  Lookup_loop (String.length tag) tag key.

(** [StructTag.Get]: the empty string when the key is not found. *)
Definition Get (tag key : string) : string :=
  match Lookup tag key with Some v => v | None => EmptyString end.

(** *** JSON values and their text *)

#[warnings="-register-all"]
Inductive JSON : Type :=
| JNull
| JNumber (n : Z)
| JString (s : string)
| JArray (elems : list JSON)
| JObject (members : list (string * JSON)).

(** The part of a [json] tag before the first comma. *)
Fixpoint before_comma (s : string) : string :=
  match s with
  | EmptyString => EmptyString
  | String c rest =>
      if Ascii.eqb c "," then EmptyString else String c (before_comma rest)
  end.

(** The key under which [encoding/json] writes a struct field: [None] for a
    field that is left out (tag [-]), the name given by the tag, or the
    name of the field when the tag gives none.  (The options after the
    comma and the check of the name's characters are not modelled.) *)
Definition member_key (field tag : string) : option string :=
  let t := Get tag "json" in
  if String.eqb t "-" then None
  else
    let name := before_comma t in
    if String.eqb name EmptyString then Some field else Some name.

Definition hex_digit (n : nat) : ascii :=
  match get n "0123456789abcdef" with
  | Some c => c
  | None => "0"%char
  end.

(** One byte of a string value.  The text is taken to be valid UTF-8
    without U+2028 and U+2029, so bytes from 128 on are copied. *)
Definition encode_byte (c : ascii) : string :=
  let n := nat_of_ascii c in
  if Ascii.eqb c dquote || Ascii.eqb c backslash
  then String backslash (String c EmptyString)
  else if Nat.eqb n 10 then String backslash "n"
  else if Nat.eqb n 13 then String backslash "r"
  else if Nat.eqb n 9 then String backslash "t"
  else if Nat.ltb n 32 || Ascii.eqb c "<" || Ascii.eqb c ">"
          || Ascii.eqb c "&"
  then String backslash
         ("u00" ++ String (hex_digit (Nat.div n 16))
                     (String (hex_digit (Nat.modulo n 16)) EmptyString))
  else String c EmptyString.

Fixpoint encode_bytes (s : string) : string :=
  match s with
  | EmptyString => EmptyString
  | String c rest => encode_byte c ++ encode_bytes rest
  end.

Definition encode_string (s : string) : string :=
  String dquote (encode_bytes s ++ String dquote EmptyString).

Fixpoint sep_by (sep : string) (l : list string) : string :=
  match l with
  | [] => EmptyString
  | [x] => x
  | x :: rest => x ++ sep ++ sep_by sep rest
  end.

Fixpoint render (j : JSON) : string :=
  match j with
  | JNull => "null"
  | JNumber n => Go.itoa n
  | JString s => encode_string s
  | JArray elems => "[" ++ sep_by "," (map render elems) ++ "]"
  | JObject members =>
      "{" ++ sep_by ","
               (map (fun m => encode_string (fst m) ++ ":" ++ render (snd m))
                    members)
          ++ "}"
  end.

End Json.


(** ** The search listing ([github-list-pr/main.go]) *)

Module ListPR.
Import Go.

Definition usage : string := "Usage: github-list-pr QUERY".

Record PullRequest : Type := mkPullRequest {
  Number : Z;
  Title : string;
  State : string;
  URL : string
}.

(** The fields of [PullRequest] in declaration order, each with its tag as
    it is written between the back quotes in the source. *)
Definition PullRequest_fields : list (string * string) :=
  [ ("Number", "json:number");
    ("Title", "json:title");
    ("State", "json:state");
    ("URL", "json:url") ].

(** The zero value of the struct. *)
Definition PullRequest_zero : PullRequest := mkPullRequest 0 "" "" "".

(** The search types of the API: [githubv4.SearchTypeIssue] and its
    siblings. *)
Inductive SearchType : Type :=
| SearchTypeIssue
| SearchTypeRepository
| SearchTypeUser.

(** What the remote side holds at a position of the result list of an
    issue search: a pull request, or an issue that is not one.  The query
    selects fields through the fragment [... on PullRequest] only. *)
Inductive SearchResultItem : Type :=
| PullRequestItem (pr : PullRequest)
| IssueItem.

(** The embedded [PullRequest] of a decoded node: the selected fields of a
    pull request; for any other item the fragment selects nothing and the
    struct keeps its zero value. *)
Definition node_PullRequest (n : SearchResultItem) : PullRequest :=
  match n with
  | PullRequestItem pr => pr
  | IssueItem => PullRequest_zero
  end.

Record PageInfo : Type := mkPageInfo {
  EndCursor : string;
  HasNextPage : bool
}.

(** The field [Search] of the query struct [q] after a call. *)
Record Search : Type := mkSearch {
  IssueCount : Z;
  Nodes : list SearchResultItem;
  PageInfo_ : PageInfo
}.

(** The map [variables]; [None] is the nil [*githubv4.String]. *)
Record Variables : Type := mkVariables {
  query : string;
  type : SearchType;
  resultCursor : option string
}.

(** The one request of the command: [search(query: $query, type: $type,
    first: 100, after: $resultCursor)]. *)
Inductive Call : Type :=
| SearchQuery (first : Z) (variables : Variables).

Record Client : Type := mkClient {
  Query : list Call -> Call -> Search + string
}.

Record Invocation : Type := mkInvocation {
  GITHUB_TOKEN : string;
  args : list string
}.

(** A slice of [PullRequest]: [None] is the nil slice. *)
Definition slice := option (list PullRequest).

Definition append (s : slice) (x : PullRequest) : slice :=
  match s with
  | None => Some [x]
  | Some l => Some (l ++ [x])%list
  end.

(** [json.Marshal] of a [PullRequest] and of a slice of them. *)
Definition PullRequest_values (p : PullRequest) : list Json.JSON :=
  [ Json.JNumber (Number p); Json.JString (Title p);
    Json.JString (State p); Json.JString (URL p) ].

Fixpoint members (fields : list (string * string)) (values : list Json.JSON)
  : list (string * Json.JSON) :=
  match fields, values with
  | (name, tag) :: fields', v :: values' =>
      match Json.member_key name tag with
      | Some k => (k, v) :: members fields' values'
      | None => members fields' values'
      end
  | _, _ => []
  end.

Definition PullRequest_json (p : PullRequest) : Json.JSON :=
  Json.JObject (members PullRequest_fields (PullRequest_values p)).

Definition slice_json (s : slice) : Json.JSON :=
  match s with
  | None => Json.JNull
  | Some l => Json.JArray (map PullRequest_json l)
  end.

(** Encoding integers and strings cannot fail: the error is always nil. *)
Definition json_Marshal (s : slice) : string * error :=
  (Json.render (slice_json s), None).

(** The [for] loop of [main].  [None] is returned when the loop has not
    reached its [break] within [fuel] rounds. *)
Fixpoint loop (fuel : nat) (v4 : Client) (variables : Variables)
  (result : slice) : Proc Call (option slice) :=
  match fuel with
  | O => ret None
  | S fuel' =>
      got <- (let c := SearchQuery 100 variables in
              remote (fun h => Query v4 h c) c) ;;
      q <-
        match got with
        | inl q => ret q
        | inr e => log_Fatal ("[ERROR] Error querying Github API: " ++ e)
        end ;;
      let result :=
        fold_left (fun r n => append r (node_PullRequest n)) (Nodes q) result in
      if negb (HasNextPage (PageInfo_ q)) then ret (Some result)
      else
        loop fuel' v4
          (mkVariables (query variables) (type variables)
                       (Some (EndCursor (PageInfo_ q))))
          result
  end.

Definition main (fuel : nat) (inv : Invocation) (v4 : Client)
  : Proc Call (option unit) :=
  let token := GITHUB_TOKEN inv in
  when (Nat.eqb (String.length token) 0)
    (log_Fatal "[ERROR] Environment variable GITHUB_TOKEN must be set") ;;
  let args := args inv in
  when (negb (Nat.eqb (List.length args) 1))
    (log_Print "[ERROR] Invalid argument" ;;
     fmt_Fprint_Stderr usage ;;
     return_) ;;
  let query := nth 0 args "" in
  let variables := mkVariables query SearchTypeIssue None in
  looped <- loop fuel v4 variables None ;;
  match looped with
  | None => ret None
  | Some result =>
      let (res, err) := json_Marshal result in
      fatal_on err (fun e => "[ERROR] Error marshalling result into JSON: "
                             ++ e) ;;
      fmt_Printf res ;;
      ret (Some tt)
  end.

(** A run from the empty history: [None] when the loop needs more than
    [fuel] rounds, otherwise how [main] ended and what the process did. *)
Definition run (fuel : nat) (inv : Invocation) (v4 : Client)
  : option (Step unit * World Call) :=
  match main fuel inv v4 start with
  | (Next None, _) => None
  | (Next (Some _), w) => Some (Next tt, w)
  | (Return, w) => Some (Return, w)
  | (Fatal, w) => Some (Fatal, w)
  end.

(** *** Vocabulary for the statements about runs *)

(** The request of a round of the loop. *)
Definition request (query : string) (cursor : option string) : Call :=
  SearchQuery 100 (mkVariables query SearchTypeIssue cursor).

Definition cursor_of (c : Call) : option string :=
  match c with SearchQuery _ variables => resultCursor variables end.

Definition type_of (c : Call) : SearchType :=
  match c with SearchQuery _ variables => type variables end.

(** From the history [h] and the cursor [cursor] on, the remote side answers
    the rounds of the loop with [pages], one after the other: every page
    but the last reports a next page, the last one reports none. *)
Fixpoint serves (v4 : Client) (query : string) (h : list Call)
  (cursor : option string) (pages : list Search) : Prop :=
  match pages with
  | [] => False
  | p :: rest =>
      Query v4 h (request query cursor) = inl p /\
      match rest with
      | [] => HasNextPage (PageInfo_ p) = false
      | _ :: _ =>
          HasNextPage (PageInfo_ p) = true /\
          serves v4 query (h ++ [request query cursor])
                 (Some (EndCursor (PageInfo_ p))) rest
      end
  end.

(** The requests that fetch [pages]: each one carries the end cursor of the
    page before it. *)
Fixpoint requests (query : string) (cursor : option string)
  (pages : list Search) : list Call :=
  match pages with
  | [] => []
  | p :: rest =>
      request query cursor
      :: requests query (Some (EndCursor (PageInfo_ p))) rest
  end.

(** The entries of one page, and of all pages in order of arrival. *)
Definition page_entries (p : Search) : list PullRequest :=
  map node_PullRequest (Nodes p).

Definition collected (pages : list Search) : list PullRequest :=
  concat (map page_entries pages).

(** Appending a list to a slice, and the slice grown from nil. *)
Definition extend (s : slice) (l : list PullRequest) : slice :=
  fold_left append l s.

Definition slice_of (l : list PullRequest) : slice := extend None l.

(** The keys of a JSON object. *)
Definition keys (j : Json.JSON) : list string :=
  match j with
  | Json.JObject ms => map fst ms
  | _ => []
  end.

(** The cursor the loop holds after it has taken [pages]. *)
Fixpoint cursor_after (cursor : option string) (pages : list Search)
  : option string :=
  match pages with
  | [] => cursor
  | p :: rest => cursor_after (Some (EndCursor (PageInfo_ p))) rest
  end.

(** From the history [h] and the cursor [cursor] on, the remote side answers
    with [pages], each of them reporting a next page, and then fails with
    the error [e]. *)
Fixpoint fails_after (v4 : Client) (query : string) (h : list Call)
  (cursor : option string) (pages : list Search) (e : string) : Prop :=
  match pages with
  | [] => Query v4 h (request query cursor) = inr e
  | p :: rest =>
      Query v4 h (request query cursor) = inl p
      /\ HasNextPage (PageInfo_ p) = true
      /\ fails_after v4 query (h ++ [request query cursor])
            (Some (EndCursor (PageInfo_ p))) rest e
  end.

(** An entry has a percent sign in one of its strings. *)
Definition has_percent (p : PullRequest) : bool :=
  has_verb (Title p) || has_verb (State p) || has_verb (URL p).

End ListPR.


(** ** Sample invocations and remote sides *)

Module Sample.

(** *** For the GraphQL close command *)

Definition widget (state headRepo : string) : ClosePRGraphQL.PullRequest :=
  ClosePRGraphQL.mkPullRequest "PR_42" 42 "Fix the widget" state
    (ClosePRGraphQL.mkNamed "R1" "widgets")
    (ClosePRGraphQL.mkNamed "REF_7" "fix-widget")
    (ClosePRGraphQL.mkNamed headRepo "widgets").

(** A remote side that knows one pull request and accepts every mutation
    but the ones in [refused]. *)
Definition graphql_remote (pr : ClosePRGraphQL.PullRequest)
  (refused : ClosePRGraphQL.Call -> bool) : ClosePRGraphQL.Client :=
  ClosePRGraphQL.mkClient
    (fun _ _ => inl pr)
    (fun _ c => if refused c then Some "forbidden" else None).

Definition none_refused (c : ClosePRGraphQL.Call) : bool := false.

Definition comment_refused (c : ClosePRGraphQL.Call) : bool :=
  match c with
  | ClosePRGraphQL.AddComment _ _ => true
  | _ => false
  end.

Definition graphql_cli (comment : string) (delete strict : bool)
  : ClosePRGraphQL.Invocation :=
  ClosePRGraphQL.mkInvocation "token" comment delete strict
    ["acme"; "widgets"; "42"].

(** *** For the REST close command *)

Definition rest_repo (id : Z) (name : string)
  : option ClosePRRest.Repository :=
  Some (ClosePRRest.mkRepository (Some id) (Some name)).

Definition rest_widget (state : string) (headRepo : Z)
  : ClosePRRest.PullRequest :=
  ClosePRRest.mkPullRequest (Some 42) (Some state)
    (Some "Fix the widget") (Some "body")
    (Some (ClosePRRest.mkPullRequestBranch (Some "fix-widget")
             (rest_repo headRepo "acme/widgets")))
    (Some (ClosePRRest.mkPullRequestBranch (Some "master")
             (rest_repo 1 "acme/widgets")))
    [("Draft", "false")].

Definition rest_remote (pr : ClosePRRest.PullRequest)
  (refused : ClosePRRest.Call -> bool) : ClosePRRest.Client :=
  ClosePRRest.mkClient
    (fun _ _ => inl pr)
    (fun _ c => if refused c then Some "forbidden" else None).

Definition rest_none_refused (c : ClosePRRest.Call) : bool := false.

Definition rest_cli (comment : string) (delete : bool)
  : ClosePRRest.Invocation :=
  ClosePRRest.mkInvocation "token" comment delete ["acme"; "widgets"; "42"].

(** *** For the search listing *)

Definition summary (i : nat) : ListPR.PullRequest :=
  ListPR.mkPullRequest (Z.of_nat i) "Fix the widget" "OPEN"
    "https://github.com/acme/widgets/pull".

(** A page with the pull requests numbered [from], [from + 1], ... *)
Definition page (from count : nat) (cursor : string) (more : bool)
  : ListPR.Search :=
  ListPR.mkSearch 242
    (map (fun i => ListPR.PullRequestItem (summary i)) (seq from count))
    (ListPR.mkPageInfo cursor more).

Definition three_pages : list ListPR.Search :=
  [ page 1 100 "Y3Vyc29yOjEwMA==" true;
    page 101 100 "Y3Vyc29yOjIwMA==" true;
    page 201 42 "Y3Vyc29yOjI0Mg==" false ].

(** A remote side that answers the n-th request with the n-th page. *)
Definition paged (pages : list ListPR.Search) : ListPR.Client :=
  ListPR.mkClient
    (fun h _ =>
       match nth_error pages (List.length h) with
       | Some p => inl p
       | None => inr "no such page"
       end).

Definition no_match : list ListPR.Search :=
  [ ListPR.mkSearch 0 [] (ListPR.mkPageInfo "" false) ].

(** One issue that is not a pull request, then one pull request. *)
Definition mixed : list ListPR.Search :=
  [ ListPR.mkSearch 2
      [ListPR.IssueItem; ListPR.PullRequestItem (summary 7)]
      (ListPR.mkPageInfo "Y3Vyc29yOjI=" false) ].

Definition list_cli (args : list string) : ListPR.Invocation :=
  ListPR.mkInvocation "token" args.

(** *** Remote sides that fail *)

Definition close_refused (c : ClosePRGraphQL.Call) : bool :=
  match c with
  | ClosePRGraphQL.ClosePullRequest _ => true
  | _ => false
  end.

Definition delete_refused (c : ClosePRGraphQL.Call) : bool :=
  match c with
  | ClosePRGraphQL.DeleteRef _ => true
  | _ => false
  end.

Definition graphql_down : ClosePRGraphQL.Client :=
  ClosePRGraphQL.mkClient (fun _ _ => inr "Could not resolve to a PullRequest")
                          (fun _ _ => None).

Definition rest_edit_refused (c : ClosePRRest.Call) : bool :=
  match c with
  | ClosePRRest.PullRequests_Edit _ _ _ _ => true
  | _ => false
  end.

Definition rest_delete_refused (c : ClosePRRest.Call) : bool :=
  match c with
  | ClosePRRest.Git_DeleteRef _ _ _ => true
  | _ => false
  end.

Definition rest_down : ClosePRRest.Client :=
  ClosePRRest.mkClient (fun _ _ => inr "404 Not Found") (fun _ _ => None).

(** A pull request whose fork is gone: the head branch has no repository. *)
Definition rest_orphan : ClosePRRest.PullRequest :=
  ClosePRRest.mkPullRequest (Some 42) (Some "open")
    (Some "Fix the widget") (Some "body")
    (Some (ClosePRRest.mkPullRequestBranch (Some "fix-widget") None))
    (Some (ClosePRRest.mkPullRequestBranch (Some "master")
             (rest_repo 1 "acme/widgets")))
    [].

(** A pull request without repositories on either side. *)
Definition rest_bare : ClosePRRest.PullRequest :=
  ClosePRRest.mkPullRequest (Some 42) (Some "open") None None
    (Some (ClosePRRest.mkPullRequestBranch (Some "fix-widget") None))
    None [].

(** A pull request with a percent sign in its title. *)
Definition percent_page : list ListPR.Search :=
  [ ListPR.mkSearch 1
      [ListPR.PullRequestItem
         (ListPR.mkPullRequest 9 "Speed up by 50%" "OPEN"
            "https://github.com/acme/widgets/pull/9")]
      (ListPR.mkPageInfo "Y3Vyc29yOjE=" false) ].

End Sample.

(** * Facts about the runs *)

#[local] Arguments String.append : simpl never.
#[local] Arguments Go.itoa : simpl never.
#[local] Arguments Go.to_int32 : simpl never.

(** Run the statements whose tests are decided. *)
Ltac run_step :=
  cbv beta iota zeta delta
    [Go.bind Go.ret Go.when Go.remote Go.return_ Go.log_Print Go.log_Fatal
     Go.fatal_on Go.fmt_Fprint_Stderr Go.fmt_Printf Go.start Go.status
     Go.calls Go.logged Go.errout Go.printed
     fst snd app List.length Nat.eqb nth].

(** Decide the next test of a run by cases. *)
Ltac run_case :=
  match goal with
  | |- context [negb ?b] => destruct b eqn:?; cbn [negb]
  | |- context [match ?x with Some _ => _ | None => _ end] =>
      destruct x eqn:?
  | |- context [if ?b then _ else _] => destruct b eqn:?
  end.

Ltac run_all := run_step; repeat (run_case; run_step).

Lemma token_set (t : string) :
  t <> "" -> Nat.eqb (String.length t) 0 = false.
Proof. destruct t; [congruence | reflexivity]. Qed.

Lemma positive_number (n : Z) : 0 < n -> (n <=? 0) = false.
Proof. intros H. apply Z.leb_gt. exact H. Qed.

Section GraphQLRuns.
Import Go ClosePRGraphQL.

Variables (inv : Invocation) (v4 : Client).
Variables (owner repo : string) (prNumber : Z) (pr : PullRequest).
Hypothesis Hres : resolves inv v4 owner repo prNumber pr.

Lemma graphql_after_lookup :
  run inv v4
  = workflow inv v4 prNumber pr (mkWorld [lookup owner repo prNumber] [] [] []).
Proof.
  destruct Hres as (Ht & (number & Ha & Hn) & Hpos & Hq).
  unfold run, main.
  rewrite (token_set _ Ht), Ha. run_step. cbn [negb].
  rewrite Hn, (positive_number _ Hpos).
  unfold getPRIDByNumber. run_step.
  fold (lookup owner repo prNumber). rewrite Hq. reflexivity.
Qed.

(** A pull request that is not open: a warning and [return], or the fatal
    entry under [-strict]; the lookup stays the only call. *)
Lemma graphql_not_open :
  State pr <> "OPEN" ->
  run inv v4
  = if strictFlag inv
    then (Fatal, mkWorld [lookup owner repo prNumber]
                   ["[ERROR] PR " ++ itoa prNumber
                    ++ " is not open - not attempting any action"] [] [])
    else (Return, mkWorld [lookup owner repo prNumber]
                    ["[WARN] PR " ++ itoa prNumber
                     ++ " is not open - not attempting any action"] [] []).
Proof.
  intros Hs. rewrite graphql_after_lookup. unfold workflow.
  apply String.eqb_neq in Hs. rewrite Hs.
  destruct (strictFlag inv); reflexivity.
Qed.

(** An open pull request and a close comment: the comment is the first
    mutation; the close follows it exactly when the comment is accepted. *)
Lemma graphql_comment_then_close :
  State pr = "OPEN" ->
  closeCommentFlag inv <> "" ->
  let comment := AddComment (ID pr) (closeCommentFlag inv) in
  match Mutate v4 [lookup owner repo prNumber] comment with
  | Some e =>
      run inv v4
      = (Fatal, mkWorld [lookup owner repo prNumber; comment]
                  ["[ERROR] Failed to comment on PR " ++ itoa prNumber
                   ++ ": " ++ e] [] [])
  | None =>
      exists rest,
        calls (snd (run inv v4))
        = lookup owner repo prNumber :: comment
            :: ClosePullRequest (ID pr) :: rest
        /\ Forall (fun c => exists id, c = DeleteRef id) rest
  end.
Proof.
  intros Hs Hc. cbn zeta. rewrite graphql_after_lookup. unfold workflow.
  apply String.eqb_eq in Hs. apply String.eqb_neq in Hc.
  rewrite Hs, Hc. cbn [negb]. unfold commentOnPR, closePR, deleteRef.
  destruct (Mutate v4 _ (AddComment _ _)) as [e|] eqn:Hm;
    run_step; rewrite Hm; [reflexivity|].
  run_all; eexists; (split; [reflexivity|]); repeat constructor; eauto.
Qed.

(** The reference is deleted exactly when the close has been accepted, the
    flag is set and both repositories have the same identifier. *)
Lemma graphql_delete_iff (id : string) :
  In (DeleteRef id) (calls (snd (run inv v4)))
  <-> close_accepted inv v4 owner repo prNumber pr
      /\ deleteBranchFlag inv = true
      /\ ID_ (HeadRepository pr) = ID_ (BaseRepository pr)
      /\ id = ID_ (HeadRef pr).
Proof.
  rewrite graphql_after_lookup.
  unfold workflow, close_accepted, comment_calls, commentOnPR, closePR, deleteRef.
  run_all.
  all: repeat match goal with
         | H : String.eqb _ _ = true |- _ => apply String.eqb_eq in H
         | H : String.eqb _ _ = false |- _ => apply String.eqb_neq in H
         end.
  all: cbn [In]; split; intros; intuition (try discriminate; try congruence).
Qed.

End GraphQLRuns.

Section GraphQLBranch.
Import Go ClosePRGraphQL.

Variables (inv : Invocation) (v4 : Client).
Variables (owner repo : string) (prNumber : Z) (pr : PullRequest).
Hypothesis Hres : resolves inv v4 owner repo prNumber pr.
Hypothesis Hclosed : close_accepted inv v4 owner repo prNumber pr.
Hypothesis Hflag : deleteBranchFlag inv = true.

(** The head repository is another one: the run returns after the warning
    that names both, and no reference is deleted. *)
Lemma graphql_fork_skip :
  ID_ (HeadRepository pr) <> ID_ (BaseRepository pr) ->
  run inv v4
  = (Return,
     mkWorld (lookup owner repo prNumber :: comment_calls inv pr
              ++ [ClosePullRequest (ID pr)])
       ["[INFO] Successfully closed PR " ++ itoa prNumber;
        "[WARN] PR head repository " ++ Name (HeadRepository pr)
        ++ " and base repository " ++ Name (BaseRepository pr)
        ++ " are different - not attempting to delete PR branch"] [] []).
Proof.
  intros Hid. destruct Hclosed as (Hs & Hc & Hcl).
  rewrite (graphql_after_lookup _ _ _ _ _ _ Hres).
  unfold workflow, commentOnPR, closePR, deleteRef.
  unfold comment_calls in *.
  apply String.eqb_eq in Hs. apply String.eqb_neq in Hid.
  rewrite Hs, Hflag, Hid. cbn [negb].
  destruct (String.eqb (closeCommentFlag inv) "") eqn:He; cbn [negb]; run_step.
  - rewrite Hcl. reflexivity.
  - rewrite Hc by (apply String.eqb_neq; exact He). rewrite Hcl. reflexivity.
Qed.

End GraphQLBranch.

Section RestRuns.
Import Go ClosePRRest.

Variables (inv : Invocation) (client : Client).
Variables (owner repo : string) (prNumber : Z) (pr : PullRequest).
Hypothesis Hres : resolves inv client owner repo prNumber pr.

Lemma rest_after_lookup :
  run inv client
  = workflow inv client owner repo prNumber pr
      (mkWorld [lookup owner repo prNumber] [] [] []).
Proof.
  destruct Hres as (Ht & (number & Ha & Hn) & Hpos & Hq).
  unfold run, main.
  rewrite (token_set _ Ht), Ha. run_step. cbn [negb].
  rewrite Hn, (positive_number _ Hpos). run_step.
  fold (lookup owner repo prNumber). rewrite Hq. reflexivity.
Qed.

(** This variant has no [-strict] flag: a pull request that is not open is
    always fatal, with the lookup as the only call. *)
Lemma rest_not_open :
  GetState pr <> "open" ->
  run inv client
  = (Fatal, mkWorld [lookup owner repo prNumber]
              ["[ERROR] PR " ++ itoa prNumber ++ " is not open"] [] []).
Proof.
  intros Hs. rewrite rest_after_lookup. unfold workflow.
  apply String.eqb_neq in Hs. rewrite Hs. reflexivity.
Qed.

Lemma rest_comment_then_close :
  GetState pr = "open" ->
  closeCommentFlag inv <> "" ->
  let comment :=
    Issues_CreateComment owner repo prNumber (closeCommentFlag inv) in
  match Do client [lookup owner repo prNumber] comment with
  | Some e =>
      run inv client
      = (Fatal, mkWorld [lookup owner repo prNumber; comment]
                  ["[ERROR] Failed to comment on PR " ++ itoa prNumber
                   ++ ": " ++ e] [] [])
  | None =>
      exists rest,
        calls (snd (run inv client))
        = lookup owner repo prNumber :: comment
            :: edit owner repo prNumber pr :: rest
        /\ Forall (fun c => exists o r ref, c = Git_DeleteRef o r ref) rest
  end.
Proof.
  intros Hs Hc. cbn zeta. rewrite rest_after_lookup. unfold workflow.
  apply String.eqb_eq in Hs. apply String.eqb_neq in Hc.
  rewrite Hs, Hc. cbn [negb].
  destruct (Do client _ (Issues_CreateComment _ _ _ _)) as [e|] eqn:Hm;
    run_step; rewrite Hm; [reflexivity|].
  run_all; eexists; (split; [reflexivity|]); repeat constructor; eauto.
Qed.

Lemma rest_delete_iff (o r ref : string) :
  In (Git_DeleteRef o r ref) (calls (snd (run inv client)))
  <-> close_accepted inv client owner repo prNumber pr
      /\ deleteBranchFlag inv = true
      /\ GetID (GetRepo (Head pr)) = GetID (GetRepo (Base pr))
      /\ o = owner /\ r = repo
      /\ ref = "heads/" ++ GetRef (Head pr).
Proof.
  rewrite rest_after_lookup.
  unfold workflow, close_accepted, comment_calls, edit, GetHead, GetBase.
  cbn [set_State Head Base].
  run_all.
  all: repeat match goal with
         | H : String.eqb _ _ = true |- _ => apply String.eqb_eq in H
         | H : String.eqb _ _ = false |- _ => apply String.eqb_neq in H
         | H : Z.eqb _ _ = true |- _ => apply Z.eqb_eq in H
         | H : Z.eqb _ _ = false |- _ => apply Z.eqb_neq in H
         end.
  all: cbn [In]; split; intros; intuition (try discriminate; try congruence).
Qed.

(** Whatever [Edit] is called with is the fetched record with [State] set to
    [closed]. *)
Lemma rest_edit_argument (o r : string) (n : Z) (p : PullRequest) :
  In (PullRequests_Edit o r n p) (calls (snd (run inv client))) ->
  o = owner /\ r = repo /\ n = prNumber /\ p = set_State pr "closed".
Proof.
  rewrite rest_after_lookup.
  unfold workflow, GetHead, GetBase.
  run_all.
  all: cbn [In]; intros; intuition (try discriminate; try congruence).
  all: match goal with
       | H : PullRequests_Edit _ _ _ _ = PullRequests_Edit _ _ _ _ |- _ =>
           inversion H; reflexivity
       end.
Qed.

(** The call is there once the pull request is open and the comment, if
    any, is accepted. *)
Lemma rest_edit_issued :
  GetState pr = "open" ->
  (closeCommentFlag inv <> "" ->
   Do client [lookup owner repo prNumber]
      (Issues_CreateComment owner repo prNumber (closeCommentFlag inv))
   = None) ->
  In (edit owner repo prNumber pr) (calls (snd (run inv client))).
Proof.
  intros Hs Hc. rewrite rest_after_lookup.
  unfold workflow, edit, GetHead, GetBase.
  apply String.eqb_eq in Hs. rewrite Hs. cbn [negb].
  destruct (String.eqb (closeCommentFlag inv) "") eqn:He; cbn [negb].
  - run_all; cbn [In]; auto.
  - run_step. rewrite Hc by (apply String.eqb_neq; exact He).
    run_all; cbn [In]; auto.
Qed.

End RestRuns.

Section RestBranch.
Import Go ClosePRRest.

Variables (inv : Invocation) (client : Client).
Variables (owner repo : string) (prNumber : Z) (pr : PullRequest).
Hypothesis Hres : resolves inv client owner repo prNumber pr.
Hypothesis Hclosed : close_accepted inv client owner repo prNumber pr.
Hypothesis Hflag : deleteBranchFlag inv = true.

Lemma rest_fork_skip :
  GetID (GetRepo (Head pr)) <> GetID (GetRepo (Base pr)) ->
  run inv client
  = (Return,
     mkWorld (lookup owner repo prNumber
              :: comment_calls inv owner repo prNumber
              ++ [edit owner repo prNumber pr])
       ["[INFO] Successfully closed PR " ++ itoa prNumber;
        "[WARN] PR head repository " ++ GetFullName (GetRepo (Head pr))
        ++ " and base repository " ++ GetFullName (GetRepo (Base pr))
        ++ " are different - not attempting to delete PR branch"] [] []).
Proof.
  intros Hid. destruct Hclosed as (Hs & Hc & Hcl).
  rewrite (rest_after_lookup _ _ _ _ _ _ Hres).
  unfold workflow, GetHead, GetBase. cbn [set_State Head Base].
  unfold comment_calls, edit in *.
  apply String.eqb_eq in Hs. apply Z.eqb_neq in Hid.
  rewrite Hs, Hflag, Hid. cbn [negb].
  destruct (String.eqb (closeCommentFlag inv) "") eqn:He; cbn [negb]; run_step.
  - rewrite Hcl. reflexivity.
  - rewrite Hc by (apply String.eqb_neq; exact He). rewrite Hcl. reflexivity.
Qed.

End RestBranch.

Section ListRuns.
Import Go ListPR.

Variable v4 : Client.
Variable query : string.

Lemma extend_app (s : slice) (l1 l2 : list PullRequest) :
  extend s (l1 ++ l2) = extend (extend s l1) l2.
Proof. unfold extend. apply fold_left_app. Qed.

Lemma fold_nodes (nodes : list SearchResultItem) (s : slice) :
  fold_left (fun r n => append r (node_PullRequest n)) nodes s
  = extend s (map node_PullRequest nodes).
Proof.
  revert s. induction nodes as [|n nodes IH]; intros s; [reflexivity|].
  cbn [fold_left map]. rewrite IH. reflexivity.
Qed.

Lemma extend_some (l0 l : list PullRequest) :
  extend (Some l0) l = Some (l0 ++ l)%list.
Proof.
  revert l0. induction l as [|x l IH]; intros l0.
  - cbn. rewrite app_nil_r. reflexivity.
  - unfold extend in *. cbn [fold_left append]. rewrite IH.
    rewrite <- app_assoc. reflexivity.
Qed.

(** The slice is nil exactly when nothing was appended. *)
Lemma slice_of_spec (l : list PullRequest) :
  slice_of l = match l with [] => None | _ :: _ => Some l end.
Proof.
  destruct l as [|x l]; [reflexivity|].
  unfold slice_of, extend. cbn [fold_left append].
  apply (extend_some [x] l).
Qed.

(** The loop on a remote side that serves [pages]: with a round of fuel for
    every page it ends at the [break], has sent the requests of the cursor
    chain, and has appended the entries of every page in order. *)
Lemma loop_serves (pages : list Search) :
  forall (fuel : nat) (cursor : option string) (acc : slice)
         (h : list Call) (lg er pr : list string),
    serves v4 query h cursor pages ->
    (List.length pages <= fuel)%nat ->
    loop fuel v4 (mkVariables query SearchTypeIssue cursor) acc
         (mkWorld h lg er pr)
    = (Next (Some (extend acc (collected pages))),
       mkWorld (h ++ requests query cursor pages) lg er pr).
Proof.
  induction pages as [|p rest IH]; intros fuel cursor acc h lg er pr Hs Hf.
  - destruct Hs.
  - destruct fuel as [|fuel]; [cbn in Hf; lia|].
    destruct Hs as (Hq & Hrest).
    cbn [loop]. run_step. fold (request query cursor). rewrite Hq.
    rewrite fold_nodes. fold (page_entries p).
    unfold collected. cbn [map concat requests]. rewrite extend_app.
    destruct rest as [|p' rest'].
    + rewrite Hrest. cbn [negb map concat requests].
      unfold extend at 1. cbn [fold_left]. reflexivity.
    + destruct Hrest as (Hn & Hmore). rewrite Hn. cbn [negb].
      cbn [ListPR.query ListPR.type].
      rewrite (IH fuel _ _ _ lg er pr Hmore) by (cbn in Hf |- *; lia).
      rewrite <- app_assoc. reflexivity.
Qed.

Variable inv : Invocation.
Hypothesis Htoken : GITHUB_TOKEN inv <> "".
Hypothesis Hargs : args inv = [query].

Lemma list_run_serves (pages : list Search) (fuel : nat) :
  serves v4 query [] None pages ->
  (List.length pages <= fuel)%nat ->
  run fuel inv v4
  = Some (Next tt,
          mkWorld (requests query None pages) [] []
            [Json.render (slice_json (slice_of (collected pages)))]).
Proof.
  intros Hs Hf. unfold run, main.
  rewrite (token_set _ Htoken), Hargs. run_step. cbn [negb].
  rewrite (loop_serves pages fuel None None [] [] [] [] Hs Hf).
  unfold json_Marshal. run_step. reflexivity.
Qed.

End ListRuns.

(** * The close workflow *)

(** The invocations of [Sample] resolve the pull request of the remote
    side. *)
Lemma sample_graphql_resolves pr refused comment delete strict :
  ClosePRGraphQL.resolves (Sample.graphql_cli comment delete strict)
    (Sample.graphql_remote pr refused) "acme" "widgets" 42 pr.
Proof.
  unfold ClosePRGraphQL.resolves. repeat split.
  - discriminate.
  - exists "42". split; reflexivity.
Defined.

Lemma sample_rest_resolves pr refused comment delete :
  ClosePRRest.resolves (Sample.rest_cli comment delete)
    (Sample.rest_remote pr refused) "acme" "widgets" 42 pr.
Proof.
  unfold ClosePRRest.resolves. repeat split.
  - discriminate.
  - exists "42". split; reflexivity.
Defined.

(** C1. For every resolved pull request whose state is not open, the close
    workflow makes no mutating call (the lookup is its only call); without
    [-strict] it logs a warning and exits with status 0, with [-strict] it
    stops with the fatal entry that the pull request is not open (the
    precondition error) and exits with status 1. *)
Theorem close_not_open_skips_or_fails
  (inv : ClosePRGraphQL.Invocation) (v4 : ClosePRGraphQL.Client)
  (owner repo : string) (prNumber : Z) (pr : ClosePRGraphQL.PullRequest) :
  ClosePRGraphQL.resolves inv v4 owner repo prNumber pr ->
  ClosePRGraphQL.State pr <> "OPEN" ->
  let end_ := fst (ClosePRGraphQL.run inv v4) in
  let w := snd (ClosePRGraphQL.run inv v4) in
  ClosePRGraphQL.mutations w = []
  /\ Go.calls w = [ClosePRGraphQL.lookup owner repo prNumber]
  /\ (ClosePRGraphQL.strictFlag inv = false ->
      end_ = Go.Return /\ Go.status end_ = 0
      /\ Go.logged w = ["[WARN] PR " ++ Go.itoa prNumber
                        ++ " is not open - not attempting any action"])
  /\ (ClosePRGraphQL.strictFlag inv = true ->
      end_ = Go.Fatal /\ Go.status end_ = 1
      /\ Go.logged w = ["[ERROR] PR " ++ Go.itoa prNumber
                        ++ " is not open - not attempting any action"]).
Proof.
  intros Hres Hs. cbn zeta.
  rewrite (graphql_not_open _ _ _ _ _ _ Hres Hs).
  destruct (ClosePRGraphQL.strictFlag inv);
    repeat split; try reflexivity; intros; discriminate.
Qed.

Lemma close_not_open_witness :
  let inv := Sample.graphql_cli "" false false in
  let v4 := Sample.graphql_remote (Sample.widget "MERGED" "R1")
              Sample.none_refused in
  ClosePRGraphQL.mutations (snd (ClosePRGraphQL.run inv v4)) = []
  /\ Go.status (fst (ClosePRGraphQL.run inv v4)) = 0.
Proof.
  cbn zeta.
  destruct (close_not_open_skips_or_fails
              (Sample.graphql_cli "" false false)
              (Sample.graphql_remote (Sample.widget "MERGED" "R1")
                 Sample.none_refused)
              "acme" "widgets" 42 (Sample.widget "MERGED" "R1")
              (sample_graphql_resolves _ _ _ _ _))
    as (Hm & _ & Hw & _).
  - discriminate.
  - split; [exact Hm|]. apply Hw. reflexivity.
Defined.

(** C2. On an open pull request with a non-empty close comment, the comment
    request is the first call after the lookup, so it comes before the
    close; when it is refused the run stops there with status 1 and the
    close is never sent; when it is accepted the close is the next call.
    This holds for the GraphQL command and for the REST command. *)
Theorem comment_precedes_close :
  (forall (inv : ClosePRGraphQL.Invocation) (v4 : ClosePRGraphQL.Client)
          (owner repo : string) (prNumber : Z)
          (pr : ClosePRGraphQL.PullRequest),
      ClosePRGraphQL.resolves inv v4 owner repo prNumber pr ->
      ClosePRGraphQL.State pr = "OPEN" ->
      ClosePRGraphQL.closeCommentFlag inv <> "" ->
      let look := ClosePRGraphQL.lookup owner repo prNumber in
      let comment :=
        ClosePRGraphQL.AddComment (ClosePRGraphQL.ID pr)
          (ClosePRGraphQL.closeCommentFlag inv) in
      let close := ClosePRGraphQL.ClosePullRequest (ClosePRGraphQL.ID pr) in
      let end_ := fst (ClosePRGraphQL.run inv v4) in
      let w := snd (ClosePRGraphQL.run inv v4) in
      exists rest,
        Go.calls w = look :: comment :: rest
        /\ (ClosePRGraphQL.Mutate v4 [look] comment <> None ->
            rest = [] /\ end_ = Go.Fatal /\ Go.status end_ = 1)
        /\ (ClosePRGraphQL.Mutate v4 [look] comment = None ->
            exists rest', rest = close :: rest' /\ ~ In comment rest'))
  /\
  (forall (inv : ClosePRRest.Invocation) (client : ClosePRRest.Client)
          (owner repo : string) (prNumber : Z)
          (pr : ClosePRRest.PullRequest),
      ClosePRRest.resolves inv client owner repo prNumber pr ->
      ClosePRRest.GetState pr = "open" ->
      ClosePRRest.closeCommentFlag inv <> "" ->
      let look := ClosePRRest.lookup owner repo prNumber in
      let comment :=
        ClosePRRest.Issues_CreateComment owner repo prNumber
          (ClosePRRest.closeCommentFlag inv) in
      let close := ClosePRRest.edit owner repo prNumber pr in
      let end_ := fst (ClosePRRest.run inv client) in
      let w := snd (ClosePRRest.run inv client) in
      exists rest,
        Go.calls w = look :: comment :: rest
        /\ (ClosePRRest.Do client [look] comment <> None ->
            rest = [] /\ end_ = Go.Fatal /\ Go.status end_ = 1)
        /\ (ClosePRRest.Do client [look] comment = None ->
            exists rest', rest = close :: rest' /\ ~ In comment rest')).
Proof.
  split.
  - intros inv v4 owner repo prNumber pr Hres Hs Hc. cbn zeta.
    pose proof (graphql_comment_then_close _ _ _ _ _ _ Hres Hs Hc) as H.
    cbn zeta in H.
    destruct (ClosePRGraphQL.Mutate v4 _ _) as [e|].
    + rewrite H. exists []. repeat split; try reflexivity.
      intros; discriminate.
    + destruct H as (rest & Hcalls & Hrest). rewrite Hcalls.
      eexists. split; [reflexivity|]. split; [congruence|].
      intros _. exists rest. split; [reflexivity|].
      intros Hin. rewrite Forall_forall in Hrest.
      destruct (Hrest _ Hin) as (id & Hid). discriminate.
  - intros inv client owner repo prNumber pr Hres Hs Hc. cbn zeta.
    pose proof (rest_comment_then_close _ _ _ _ _ _ Hres Hs Hc) as H.
    cbn zeta in H.
    destruct (ClosePRRest.Do client _ _) as [e|].
    + rewrite H. exists []. repeat split; try reflexivity.
      intros; discriminate.
    + destruct H as (rest & Hcalls & Hrest). rewrite Hcalls.
      eexists. split; [reflexivity|]. split; [congruence|].
      intros _. exists rest. split; [reflexivity|].
      intros Hin. rewrite Forall_forall in Hrest.
      destruct (Hrest _ Hin) as (o & r & ref & Hid). discriminate.
Qed.

Lemma comment_precedes_close_witness :
  (exists rest,
      Go.calls (snd (ClosePRGraphQL.run
                       (Sample.graphql_cli "Closing" false false)
                       (Sample.graphql_remote (Sample.widget "OPEN" "R1")
                          Sample.comment_refused)))
      = ClosePRGraphQL.lookup "acme" "widgets" 42
          :: ClosePRGraphQL.AddComment "PR_42" "Closing" :: rest)
  /\
  (exists rest,
      Go.calls (snd (ClosePRRest.run
                       (Sample.rest_cli "Closing" false)
                       (Sample.rest_remote (Sample.rest_widget "open" 1)
                          Sample.rest_none_refused)))
      = ClosePRRest.lookup "acme" "widgets" 42
          :: ClosePRRest.Issues_CreateComment "acme" "widgets" 42 "Closing"
          :: rest).
Proof.
  split.
  - destruct (proj1 comment_precedes_close
                (Sample.graphql_cli "Closing" false false)
                (Sample.graphql_remote (Sample.widget "OPEN" "R1")
                   Sample.comment_refused)
                "acme" "widgets" 42 (Sample.widget "OPEN" "R1")
                (sample_graphql_resolves _ _ _ _ _))
      as (rest & H & _).
    + reflexivity.
    + discriminate.
    + exists rest. exact H.
  - destruct (proj2 comment_precedes_close
                (Sample.rest_cli "Closing" false)
                (Sample.rest_remote (Sample.rest_widget "open" 1)
                   Sample.rest_none_refused)
                "acme" "widgets" 42 (Sample.rest_widget "open" 1)
                (sample_rest_resolves _ _ _ _))
      as (rest & H & _).
    + reflexivity.
    + discriminate.
    + exists rest. exact H.
Defined.

(** C3 as the specification states it: the branch rule without the
    condition on the close fails on a pull request that is already merged.
    The flag is set and both repositories are the same, yet the run returns
    after the warning and deletes nothing. *)
Lemma delete_rule_fails_when_not_closed :
  let inv := Sample.graphql_cli "" true false in
  let pr := Sample.widget "MERGED" "R1" in
  let v4 := Sample.graphql_remote pr Sample.none_refused in
  ~ ((exists id,
         In (ClosePRGraphQL.DeleteRef id)
            (Go.calls (snd (ClosePRGraphQL.run inv v4))))
     <-> (ClosePRGraphQL.deleteBranchFlag inv = true
          /\ ClosePRGraphQL.ID_ (ClosePRGraphQL.HeadRepository pr)
             = ClosePRGraphQL.ID_ (ClosePRGraphQL.BaseRepository pr))).
Proof.
  cbn zeta. intros [_ H].
  destruct H as (id & Hin); [split; reflexivity|].
  vm_compute in Hin. destruct Hin as [Hq | []]. discriminate.
Qed.

(** C3, amended. In every run that resolves a pull request, the reference
    of the head branch is deleted if and only if the close has been
    accepted (the pull request is open, the comment, if any, and the close
    are accepted), the delete-branch flag is set and the head repository has
    the identifier of the base repository.  When the close has been
    accepted, the flag is set and the identifiers differ, the run logs a
    warning that names both repositories, returns with status 0 and deletes
    nothing.  This holds for the GraphQL command and for the REST
    command. *)
Theorem delete_iff_closed_flag_same_repo :
  (forall (inv : ClosePRGraphQL.Invocation) (v4 : ClosePRGraphQL.Client)
          (owner repo : string) (prNumber : Z)
          (pr : ClosePRGraphQL.PullRequest),
      ClosePRGraphQL.resolves inv v4 owner repo prNumber pr ->
      let end_ := fst (ClosePRGraphQL.run inv v4) in
      let w := snd (ClosePRGraphQL.run inv v4) in
      let head := ClosePRGraphQL.HeadRepository pr in
      let base := ClosePRGraphQL.BaseRepository pr in
      (forall id,
          In (ClosePRGraphQL.DeleteRef id) (Go.calls w)
          <-> ClosePRGraphQL.close_accepted inv v4 owner repo prNumber pr
              /\ ClosePRGraphQL.deleteBranchFlag inv = true
              /\ ClosePRGraphQL.ID_ head = ClosePRGraphQL.ID_ base
              /\ id = ClosePRGraphQL.ID_ (ClosePRGraphQL.HeadRef pr))
      /\ (ClosePRGraphQL.close_accepted inv v4 owner repo prNumber pr ->
          ClosePRGraphQL.deleteBranchFlag inv = true ->
          ClosePRGraphQL.ID_ head <> ClosePRGraphQL.ID_ base ->
          end_ = Go.Return /\ Go.status end_ = 0
          /\ last (Go.logged w) ""
             = "[WARN] PR head repository " ++ ClosePRGraphQL.Name head
               ++ " and base repository " ++ ClosePRGraphQL.Name base
               ++ " are different - not attempting to delete PR branch"))
  /\
  (forall (inv : ClosePRRest.Invocation) (client : ClosePRRest.Client)
          (owner repo : string) (prNumber : Z)
          (pr : ClosePRRest.PullRequest),
      ClosePRRest.resolves inv client owner repo prNumber pr ->
      let end_ := fst (ClosePRRest.run inv client) in
      let w := snd (ClosePRRest.run inv client) in
      let head := ClosePRRest.GetRepo (ClosePRRest.Head pr) in
      let base := ClosePRRest.GetRepo (ClosePRRest.Base pr) in
      (forall o r ref,
          In (ClosePRRest.Git_DeleteRef o r ref) (Go.calls w)
          <-> ClosePRRest.close_accepted inv client owner repo prNumber pr
              /\ ClosePRRest.deleteBranchFlag inv = true
              /\ ClosePRRest.GetID head = ClosePRRest.GetID base
              /\ o = owner /\ r = repo
              /\ ref = "heads/" ++ ClosePRRest.GetRef (ClosePRRest.Head pr))
      /\ (ClosePRRest.close_accepted inv client owner repo prNumber pr ->
          ClosePRRest.deleteBranchFlag inv = true ->
          ClosePRRest.GetID head <> ClosePRRest.GetID base ->
          end_ = Go.Return /\ Go.status end_ = 0
          /\ last (Go.logged w) ""
             = "[WARN] PR head repository " ++ ClosePRRest.GetFullName head
               ++ " and base repository " ++ ClosePRRest.GetFullName base
               ++ " are different - not attempting to delete PR branch")).
Proof.
  split.
  - intros inv v4 owner repo prNumber pr Hres. cbn zeta. split.
    + intros id. apply graphql_delete_iff. exact Hres.
    + intros Hcl Hflag Hid.
      rewrite (graphql_fork_skip _ _ _ _ _ _ Hres Hcl Hflag Hid).
      repeat split; reflexivity.
  - intros inv client owner repo prNumber pr Hres. cbn zeta. split.
    + intros o r ref. apply rest_delete_iff. exact Hres.
    + intros Hcl Hflag Hid.
      rewrite (rest_fork_skip _ _ _ _ _ _ Hres Hcl Hflag Hid).
      repeat split; reflexivity.
Qed.

Lemma delete_iff_witness :
  In (ClosePRGraphQL.DeleteRef "REF_7")
     (Go.calls (snd (ClosePRGraphQL.run
                       (Sample.graphql_cli "" true false)
                       (Sample.graphql_remote (Sample.widget "OPEN" "R1")
                          Sample.none_refused))))
  /\ Go.status (fst (ClosePRRest.run
                       (Sample.rest_cli "" true)
                       (Sample.rest_remote (Sample.rest_widget "open" 2)
                          Sample.rest_none_refused))) = 0.
Proof.
  split.
  - apply (proj1 (proj1 delete_iff_closed_flag_same_repo
                    (Sample.graphql_cli "" true false)
                    (Sample.graphql_remote (Sample.widget "OPEN" "R1")
                       Sample.none_refused)
                    "acme" "widgets" 42 (Sample.widget "OPEN" "R1")
                    (sample_graphql_resolves _ _ _ _ _))).
    repeat split; reflexivity.
  - apply (proj2 (proj2 delete_iff_closed_flag_same_repo
                    (Sample.rest_cli "" true)
                    (Sample.rest_remote (Sample.rest_widget "open" 2)
                       Sample.rest_none_refused)
                    "acme" "widgets" 42 (Sample.rest_widget "open" 2)
                    (sample_rest_resolves _ _ _ _))).
    + repeat split; reflexivity.
    + reflexivity.
    + discriminate.
Defined.

(** C10. In the REST command, whatever [Edit] is called with is the record
    that [Get] returned with its [State] set to [closed]: the owner, the
    repository and the number are those of the lookup and every other field
    of the record is the fetched one.  The call is made as soon as the pull
    request is open and the comment, if any, has been accepted. *)
Theorem edit_sends_snapshot_closed
  (inv : ClosePRRest.Invocation) (client : ClosePRRest.Client)
  (owner repo : string) (prNumber : Z) (pr : ClosePRRest.PullRequest) :
  ClosePRRest.resolves inv client owner repo prNumber pr ->
  let w := snd (ClosePRRest.run inv client) in
  (forall o r n sent,
      In (ClosePRRest.PullRequests_Edit o r n sent) (Go.calls w) ->
      o = owner /\ r = repo /\ n = prNumber
      /\ ClosePRRest.State sent = Some "closed"
      /\ ClosePRRest.Number sent = ClosePRRest.Number pr
      /\ ClosePRRest.Title sent = ClosePRRest.Title pr
      /\ ClosePRRest.Body sent = ClosePRRest.Body pr
      /\ ClosePRRest.Head sent = ClosePRRest.Head pr
      /\ ClosePRRest.Base sent = ClosePRRest.Base pr
      /\ ClosePRRest.Others sent = ClosePRRest.Others pr)
  /\ (ClosePRRest.GetState pr = "open" ->
      (ClosePRRest.closeCommentFlag inv <> "" ->
       ClosePRRest.Do client [ClosePRRest.lookup owner repo prNumber]
         (ClosePRRest.Issues_CreateComment owner repo prNumber
            (ClosePRRest.closeCommentFlag inv)) = None) ->
      exists sent,
        In (ClosePRRest.PullRequests_Edit owner repo prNumber sent)
           (Go.calls w)).
Proof.
  intros Hres. cbn zeta. split.
  - intros o r n sent Hin.
    destruct (rest_edit_argument _ _ _ _ _ _ Hres _ _ _ _ Hin)
      as (-> & -> & -> & ->).
    repeat split; reflexivity.
  - intros Hs Hc. eexists.
    apply (rest_edit_issued _ _ _ _ _ _ Hres Hs Hc).
Qed.

Lemma edit_sends_snapshot_closed_witness :
  let pr := Sample.rest_widget "open" 1 in
  let w := snd (ClosePRRest.run (Sample.rest_cli "Closing" true)
                  (Sample.rest_remote pr Sample.rest_none_refused)) in
  In (ClosePRRest.PullRequests_Edit "acme" "widgets" 42
        (ClosePRRest.set_State pr "closed")) (Go.calls w)
  /\ ClosePRRest.Others (ClosePRRest.set_State pr "closed")
     = ClosePRRest.Others pr.
Proof.
  cbn zeta.
  pose proof (edit_sends_snapshot_closed
                (Sample.rest_cli "Closing" true)
                (Sample.rest_remote (Sample.rest_widget "open" 1)
                   Sample.rest_none_refused)
                "acme" "widgets" 42 (Sample.rest_widget "open" 1)
                (sample_rest_resolves _ _ _ _)) as [Hall _].
  assert (Hin : In (ClosePRRest.PullRequests_Edit "acme" "widgets" 42
                      (ClosePRRest.set_State (Sample.rest_widget "open" 1)
                         "closed"))
                   (Go.calls
                      (snd (ClosePRRest.run (Sample.rest_cli "Closing" true)
                              (Sample.rest_remote
                                 (Sample.rest_widget "open" 1)
                                 Sample.rest_none_refused))))).
  { vm_compute. right. right. left. reflexivity. }
  split; [exact Hin|].
  apply (Hall _ _ _ _ Hin).
Defined.

(** * The search listing *)

Lemma requests_cursors (query : string) (pages : list ListPR.Search) :
  forall cursor,
    pages <> [] ->
    map ListPR.cursor_of (ListPR.requests query cursor pages)
    = cursor
      :: map (fun p => Some (ListPR.EndCursor (ListPR.PageInfo_ p)))
           (removelast pages).
Proof.
  induction pages as [|p rest IH]; intros cursor Hne; [congruence|].
  destruct rest as [|p' rest']; [reflexivity|].
  cbn [ListPR.requests map ListPR.cursor_of ListPR.request
       ListPR.resultCursor removelast] in *.
  f_equal. apply IH. discriminate.
Qed.

Lemma requests_length (query : string) (pages : list ListPR.Search) :
  forall cursor,
    List.length (ListPR.requests query cursor pages) = List.length pages.
Proof.
  induction pages as [|p rest IH]; intros cursor; [reflexivity|].
  cbn [ListPR.requests List.length]. rewrite IH. reflexivity.
Qed.

Lemma requests_type (query : string) (pages : list ListPR.Search) :
  forall cursor,
    Forall (fun c => ListPR.type_of c = ListPR.SearchTypeIssue)
           (ListPR.requests query cursor pages).
Proof.
  induction pages as [|p rest IH]; intros cursor; constructor;
    [reflexivity | apply IH].
Qed.

Lemma serves_nonempty v4 query h cursor pages :
  ListPR.serves v4 query h cursor pages -> pages <> [].
Proof. destruct pages; [intros [] | discriminate]. Qed.

(** One entry for every node of every page. *)
Lemma collected_length (pages : list ListPR.Search) :
  List.length (ListPR.collected pages)
  = list_sum (map (fun p => List.length (ListPR.Nodes p)) pages).
Proof.
  unfold ListPR.collected.
  induction pages as [|p rest IH]; [reflexivity|].
  cbn [map concat list_sum]. rewrite length_app, IH.
  unfold ListPR.page_entries. rewrite length_map. reflexivity.
Qed.

Lemma collected_empty (pages : list ListPR.Search) :
  (forall p, In p pages -> ListPR.Nodes p = []) ->
  ListPR.collected pages = [].
Proof.
  unfold ListPR.collected.
  induction pages as [|p rest IH]; intros H; [reflexivity|].
  cbn [map concat]. unfold ListPR.page_entries at 1.
  rewrite (H p) by (left; reflexivity).
  apply IH. intros q Hq. apply H. right. exact Hq.
Qed.

Lemma sample_serves (pages : list ListPR.Search) :
  forall h,
    pages <> [] ->
    Forall (fun p => ListPR.HasNextPage (ListPR.PageInfo_ p) = true)
           (removelast pages) ->
    ListPR.HasNextPage (ListPR.PageInfo_ (last pages (ListPR.mkSearch 0 []
                          (ListPR.mkPageInfo "" false)))) = false ->
    forall all cursor query,
      (forall n p, nth_error pages n = Some p ->
                   nth_error all (List.length h + n) = Some p) ->
      ListPR.serves (Sample.paged all) query h cursor pages.
Proof.
  induction pages as [|p rest IH]; intros h Hne Hmore Hlast all cursor query Hnth;
    [congruence|].
  cbn [ListPR.serves]. split.
  - cbn [Sample.paged ListPR.Query].
    specialize (Hnth 0%nat p eq_refl). rewrite Nat.add_0_r in Hnth.
    rewrite Hnth. reflexivity.
  - destruct rest as [|p' rest']; [exact Hlast|].
    cbn [removelast] in Hmore. inversion Hmore; subst.
    split; [assumption|].
    apply IH; try assumption; try discriminate.
    intros n q Hq. rewrite length_app. cbn [List.length].
    replace (List.length h + 1 + n)%nat with (List.length h + S n)%nat by lia.
    apply Hnth. exact Hq.
Qed.

(** C4. When the remote side answers the loop with the pages [pages], the
    slice the loop returns, and that [main] encodes and hands to
    [fmt.Printf], holds the entries of all pages in order of arrival, each
    page in its own order.
    For three pages of 100, 100 and 42 results it has 242 entries: those of
    the first page, then those of the second, then those of the third. *)
Theorem search_concatenates_pages
  (inv : ListPR.Invocation) (v4 : ListPR.Client) (query : string)
  (pages : list ListPR.Search) :
  ListPR.GITHUB_TOKEN inv <> "" ->
  ListPR.args inv = [query] ->
  ListPR.serves v4 query [] None pages ->
  let output := concat (map ListPR.page_entries pages) in
  (forall fuel,
      (List.length pages <= fuel)%nat ->
      fst (ListPR.loop fuel v4
             (ListPR.mkVariables query ListPR.SearchTypeIssue None) None
             Go.start)
      = Go.Next (Some (ListPR.slice_of output))
      /\ exists w,
          ListPR.run fuel inv v4 = Some (Go.Next tt, w)
          /\ Go.printed w
             = [Json.render (ListPR.slice_json (ListPR.slice_of output))])
  /\ (forall p1 p2 p3,
         pages = [p1; p2; p3] ->
         List.length (ListPR.Nodes p1) = 100%nat ->
         List.length (ListPR.Nodes p2) = 100%nat ->
         List.length (ListPR.Nodes p3) = 42%nat ->
         List.length output = 242%nat
         /\ ListPR.slice_of output = Some output
         /\ output
            = (ListPR.page_entries p1 ++ ListPR.page_entries p2
               ++ ListPR.page_entries p3)%list).
Proof.
  intros Ht Ha Hs. cbn zeta. split.
  - intros fuel Hf. split.
    + unfold Go.start.
      rewrite (loop_serves v4 query pages fuel None None [] [] [] [] Hs Hf).
      reflexivity.
    + eexists. split.
      * apply (list_run_serves v4 query inv Ht Ha pages fuel Hs Hf).
      * reflexivity.
  - intros p1 p2 p3 -> H1 H2 H3.
    assert (Hlen : List.length (concat (map ListPR.page_entries [p1; p2; p3]))
                   = 242%nat).
    { fold (ListPR.collected [p1; p2; p3]). rewrite collected_length.
      cbn [map list_sum]. rewrite H1, H2, H3. reflexivity. }
    split; [exact Hlen|]. split.
    + rewrite slice_of_spec.
      destruct (concat (map ListPR.page_entries [p1; p2; p3]));
        [discriminate Hlen | reflexivity].
    + cbn [map concat]. rewrite app_nil_r. reflexivity.
Qed.

Lemma three_pages_served :
  ListPR.serves (Sample.paged Sample.three_pages) "is:pr widget" [] None
    Sample.three_pages.
Proof.
  apply sample_serves.
  - discriminate.
  - repeat constructor.
  - reflexivity.
  - intros n p H. exact H.
Defined.

Lemma search_three_pages_witness :
  let output := concat (map ListPR.page_entries Sample.three_pages) in
  List.length output = 242%nat
  /\ exists w,
      ListPR.run 3 (Sample.list_cli ["is:pr widget"])
        (Sample.paged Sample.three_pages) = Some (Go.Next tt, w)
      /\ Go.printed w
         = [Json.render (ListPR.slice_json (ListPR.slice_of output))].
Proof.
  cbn zeta.
  destruct (search_concatenates_pages
              (Sample.list_cli ["is:pr widget"])
              (Sample.paged Sample.three_pages) "is:pr widget"
              Sample.three_pages)
    as (Hrun & Hlen).
  - discriminate.
  - reflexivity.
  - exact three_pages_served.
  - split.
    + apply (Hlen _ _ _ eq_refl); reflexivity.
    + apply (Hrun 3%nat). cbn. lia.
Defined.

(** C8. When the remote side reports no further page after finitely many
    pages, the loop ends: with a round for every page, and with any number
    of rounds beyond, [main] returns.  The requests it has sent are one per
    page; the first has no cursor and each later one carries the end cursor
    of the page before it. *)
Theorem search_loop_terminates
  (inv : ListPR.Invocation) (v4 : ListPR.Client) (query : string)
  (pages : list ListPR.Search) :
  ListPR.GITHUB_TOKEN inv <> "" ->
  ListPR.args inv = [query] ->
  ListPR.serves v4 query [] None pages ->
  forall fuel,
    (List.length pages <= fuel)%nat ->
    exists w,
      ListPR.run fuel inv v4 = Some (Go.Next tt, w)
      /\ List.length (Go.calls w) = List.length pages
      /\ map ListPR.cursor_of (Go.calls w)
         = None
           :: map (fun p => Some (ListPR.EndCursor (ListPR.PageInfo_ p)))
                (removelast pages).
Proof.
  intros Ht Ha Hs fuel Hf. eexists. split.
  - apply (list_run_serves v4 query inv Ht Ha pages fuel Hs Hf).
  - cbn [Go.calls]. split.
    + apply requests_length.
    + apply requests_cursors. apply (serves_nonempty _ _ _ _ _ Hs).
Qed.

Lemma search_loop_terminates_witness :
  exists w,
    ListPR.run 5 (Sample.list_cli ["is:pr widget"])
      (Sample.paged Sample.three_pages) = Some (Go.Next tt, w)
    /\ map ListPR.cursor_of (Go.calls w)
       = [None; Some "Y3Vyc29yOjEwMA=="; Some "Y3Vyc29yOjIwMA=="].
Proof.
  destruct (search_loop_terminates
              (Sample.list_cli ["is:pr widget"])
              (Sample.paged Sample.three_pages) "is:pr widget"
              Sample.three_pages) with (fuel := 5%nat)
    as (w & Hrun & _ & Hcur).
  - discriminate.
  - reflexivity.
  - exact three_pages_served.
  - cbn. lia.
  - exists w. split; [exact Hrun | exact Hcur].
Defined.

(** C9. When no page of the search has a result, nothing is appended to the
    accumulator, it is still the nil slice after the loop, its encoding is
    [null], and that is the text [main] writes to the standard output; an
    empty slice that had been allocated would be encoded as [[]]. *)
Theorem empty_search_prints_null
  (inv : ListPR.Invocation) (v4 : ListPR.Client) (query : string)
  (pages : list ListPR.Search) :
  ListPR.GITHUB_TOKEN inv <> "" ->
  ListPR.args inv = [query] ->
  ListPR.serves v4 query [] None pages ->
  (forall p, In p pages -> ListPR.Nodes p = []) ->
  forall fuel,
    (List.length pages <= fuel)%nat ->
    (exists w,
        ListPR.run fuel inv v4 = Some (Go.Next tt, w)
        /\ Go.printed w = ["null"]
        /\ map Go.Printf_text (Go.printed w) = [Some "null"])
    /\ fst (ListPR.loop fuel v4
              (ListPR.mkVariables query ListPR.SearchTypeIssue None) None
              Go.start)
       = Go.Next (Some None)
    /\ fst (ListPR.json_Marshal None) = "null"
    /\ fst (ListPR.json_Marshal (Some [])) = "[]".
Proof.
  intros Ht Ha Hs Hempty fuel Hf. repeat split.
  - eexists. split.
    + apply (list_run_serves v4 query inv Ht Ha pages fuel Hs Hf).
    + cbn [Go.printed]. rewrite (collected_empty pages Hempty).
      split; reflexivity.
  - unfold Go.start.
    rewrite (loop_serves v4 query pages fuel None None [] [] [] [] Hs Hf).
    rewrite (collected_empty pages Hempty). reflexivity.
Qed.

Lemma empty_search_prints_null_witness :
  exists w,
    ListPR.run 1 (Sample.list_cli ["is:pr no-such-thing"])
      (Sample.paged Sample.no_match) = Some (Go.Next tt, w)
    /\ Go.printed w = ["null"]
    /\ map Go.Printf_text (Go.printed w) = [Some "null"].
Proof.
  apply (empty_search_prints_null
           (Sample.list_cli ["is:pr no-such-thing"])
           (Sample.paged Sample.no_match) "is:pr no-such-thing"
           Sample.no_match).
  - discriminate.
  - reflexivity.
  - split; reflexivity.
  - intros p [<- | []]. reflexivity.
  - cbn. lia.
Defined.

(** C5. The request searches with type [ISSUE], and the loop appends one
    entry for every node it gets back.  On a page with an issue that is not
    a pull request followed by a pull request, the output has two entries:
    the zero value of [PullRequest] for the issue, then the summary of the
    pull request. *)
Theorem issue_node_is_listed_blank :
  ListPR.run 1 (Sample.list_cli ["widget"]) (Sample.paged Sample.mixed)
  = Some (Go.Next tt,
          Go.mkWorld [ListPR.request "widget" None] [] []
            [Json.render
               (Json.JArray
                  [ListPR.PullRequest_json ListPR.PullRequest_zero;
                   ListPR.PullRequest_json (Sample.summary 7)])])
  /\ ListPR.type_of (ListPR.request "widget" None) = ListPR.SearchTypeIssue
  /\ ListPR.PullRequest_json ListPR.PullRequest_zero
     = Json.JObject [("Number", Json.JNumber 0); ("Title", Json.JString "");
                     ("State", Json.JString ""); ("URL", Json.JString "")].
Proof. repeat split; vm_compute; reflexivity. Qed.

(** C6. The tags of [PullRequest] lack the quotes around their values, so
    [Lookup] finds no [json] key in them and every object of the output has
    the keys [Number], [Title], [State] and [URL], the names of the
    fields. *)
Theorem summary_keys_are_field_names (p : ListPR.PullRequest) :
  ListPR.keys (ListPR.PullRequest_json p) = ["Number"; "Title"; "State"; "URL"]
  /\ map (fun f => Json.Lookup (snd f) "json") ListPR.PullRequest_fields
     = [None; None; None; None]
  /\ ListPR.PullRequest_json p
     = Json.JObject [("Number", Json.JNumber (ListPR.Number p));
                     ("Title", Json.JString (ListPR.Title p));
                     ("State", Json.JString (ListPR.State p));
                     ("URL", Json.JString (ListPR.URL p))].
Proof. repeat split. Qed.

(** C7. With a number of arguments other than the expected one, every
    command writes the entry [Invalid argument] and its usage text and
    then returns from [main]: the exit status is 0, and no request has been
    sent. *)
Theorem wrong_argument_count_exits_zero :
  (forall fuel v4,
      ListPR.run fuel (Sample.list_cli []) v4
      = Some (Go.Return,
              Go.mkWorld [] ["[ERROR] Invalid argument"] [ListPR.usage] []))
  /\ (forall v4,
         ClosePRGraphQL.run
           (ClosePRGraphQL.mkInvocation "token" "" false false
              ["acme"; "widgets"]) v4
         = (Go.Return,
            Go.mkWorld [] ["[ERROR] Invalid argument"]
              [ClosePRGraphQL.usage] []))
  /\ (forall client,
         ClosePRRest.run
           (ClosePRRest.mkInvocation "token" "" false ["acme"; "widgets"])
           client
         = (Go.Return,
            Go.mkWorld [] ["[ERROR] Invalid argument"]
              [ClosePRRest.usage] []))
  /\ Go.status (@Go.Return unit) = 0.
Proof. repeat split. Qed.

(** * Further facts about the close commands *)

Section GraphQLPaths.
Import Go ClosePRGraphQL.

Variables (inv : Invocation) (v4 : Client).
Variables (owner repo number : string) (prNumber : Z).
Hypothesis Htoken : GITHUB_TOKEN inv <> "".
Hypothesis Hargs : args inv = [owner; repo; number].

Lemma graphql_bad_number :
  (forall n, Atoi number = Some n -> n <= 0) ->
  run inv v4
  = (Fatal, mkWorld [] ["[ERROR] PR number " ++ number
                        ++ " must be a valid positive number"] [] []).
Proof.
  intros Hbad. unfold run, main.
  rewrite (token_set _ Htoken), Hargs. run_step. cbn [negb].
  destruct (Atoi number) as [n|] eqn:Hn; [|reflexivity].
  specialize (Hbad n eq_refl).
  replace (n <=? 0) with true by (symmetry; apply Z.leb_le; exact Hbad).
  reflexivity.
Qed.

Hypothesis Hnumber : Atoi number = Some prNumber.
Hypothesis Hpos : 0 < prNumber.

Lemma graphql_lookup_fails (e : string) :
  Query v4 [] (lookup owner repo prNumber) = inr e ->
  run inv v4
  = (Fatal, mkWorld [lookup owner repo prNumber]
              ["[ERROR] Failed to get PR ID for PR " ++ itoa prNumber
               ++ ": " ++ e] [] []).
Proof.
  intros Hq. unfold run, main.
  rewrite (token_set _ Htoken), Hargs. run_step. cbn [negb].
  rewrite Hnumber, (positive_number _ Hpos).
  unfold getPRIDByNumber. run_step.
  fold (lookup owner repo prNumber). rewrite Hq. reflexivity.
Qed.

End GraphQLPaths.

Section GraphQLClose.
Import Go ClosePRGraphQL.

Variables (inv : Invocation) (v4 : Client).
Variables (owner repo : string) (prNumber : Z) (pr : PullRequest).
Hypothesis Hres : resolves inv v4 owner repo prNumber pr.

Lemma graphql_close_refused (e : string) :
  State pr = "OPEN" ->
  (closeCommentFlag inv <> "" ->
   Mutate v4 [lookup owner repo prNumber]
          (AddComment (ID pr) (closeCommentFlag inv)) = None) ->
  Mutate v4 (lookup owner repo prNumber :: comment_calls inv pr)
         (ClosePullRequest (ID pr)) = Some e ->
  run inv v4
  = (Fatal, mkWorld (upto_close inv owner repo prNumber pr)
              ["[ERROR] Failed to close PR " ++ itoa prNumber ++ ": " ++ e]
              [] []).
Proof.
  intros Hs Hc Hcl. unfold upto_close.
  rewrite (graphql_after_lookup _ _ _ _ _ _ Hres).
  unfold workflow, commentOnPR, closePR, deleteRef.
  unfold comment_calls in *.
  apply String.eqb_eq in Hs. rewrite Hs. cbn [negb].
  destruct (String.eqb (closeCommentFlag inv) "") eqn:He; cbn [negb]; run_step.
  - rewrite Hcl. reflexivity.
  - rewrite Hc by (apply String.eqb_neq; exact He). rewrite Hcl. reflexivity.
Qed.

Hypothesis Hclosed : close_accepted inv v4 owner repo prNumber pr.

Lemma graphql_closed_only :
  deleteBranchFlag inv = false ->
  run inv v4
  = (Return, mkWorld (upto_close inv owner repo prNumber pr)
               ["[INFO] Successfully closed PR " ++ itoa prNumber] [] []).
Proof.
  intros Hflag. unfold upto_close. destruct Hclosed as (Hs & Hc & Hcl).
  rewrite (graphql_after_lookup _ _ _ _ _ _ Hres).
  unfold workflow, commentOnPR, closePR, deleteRef.
  unfold comment_calls in *.
  apply String.eqb_eq in Hs. rewrite Hs, Hflag. cbn [negb].
  destruct (String.eqb (closeCommentFlag inv) "") eqn:He; cbn [negb]; run_step.
  - rewrite Hcl. reflexivity.
  - rewrite Hc by (apply String.eqb_neq; exact He). rewrite Hcl. reflexivity.
Qed.

Lemma graphql_delete_outcome :
  deleteBranchFlag inv = true ->
  ID_ (HeadRepository pr) = ID_ (BaseRepository pr) ->
  let delete := DeleteRef (ID_ (HeadRef pr)) in
  run inv v4
  = match Mutate v4 (upto_close inv owner repo prNumber pr) delete with
    | None =>
        (Next tt,
         mkWorld (upto_close inv owner repo prNumber pr ++ [delete])
           ["[INFO] Successfully closed PR " ++ itoa prNumber;
            "[INFO] Successfully deleted ref " ++ Name (HeadRef pr)] [] [])
    | Some e =>
        (Fatal,
         mkWorld (upto_close inv owner repo prNumber pr ++ [delete])
           ["[INFO] Successfully closed PR " ++ itoa prNumber;
            "[ERROR] Failed to delete ref " ++ Name (HeadRef pr)
            ++ ": " ++ e] [] [])
    end.
Proof.
  intros Hflag Hid. cbn zeta. unfold upto_close.
  destruct Hclosed as (Hs & Hc & Hcl).
  rewrite (graphql_after_lookup _ _ _ _ _ _ Hres).
  unfold workflow, commentOnPR, closePR, deleteRef.
  unfold comment_calls in *.
  apply String.eqb_eq in Hs. apply String.eqb_eq in Hid.
  rewrite Hs, Hflag, Hid. cbn [negb].
  destruct (String.eqb (closeCommentFlag inv) "") eqn:He; cbn [negb]; run_step.
  - rewrite Hcl. destruct (Mutate v4 _ (DeleteRef _)); reflexivity.
  - rewrite Hc by (apply String.eqb_neq; exact He). rewrite Hcl.
    destruct (Mutate v4 _ (DeleteRef _)); reflexivity.
Qed.

End GraphQLClose.

Section GraphQLOrder.
Import Go ClosePRGraphQL.

Variables (inv : Invocation) (v4 : Client).
Variables (owner repo : string) (prNumber : Z) (pr : PullRequest).
Hypothesis Hres : resolves inv v4 owner repo prNumber pr.

Lemma graphql_calls_prefix :
  exists rest,
    (calls (snd (run inv v4)) ++ rest)%list
    = planned inv owner repo prNumber pr.
Proof.
  rewrite (graphql_after_lookup _ _ _ _ _ _ Hres).
  unfold workflow, planned, comment_calls, commentOnPR, closePR, deleteRef.
  run_all; eexists; cbn [app]; reflexivity.
Qed.

End GraphQLOrder.

Section RestPaths.
Import Go ClosePRRest.

Variables (inv : Invocation) (client : Client).
Variables (owner repo number : string) (prNumber : Z).
Hypothesis Htoken : GITHUB_TOKEN inv <> "".
Hypothesis Hargs : args inv = [owner; repo; number].

Lemma rest_bad_number :
  (forall n, Atoi number = Some n -> n <= 0) ->
  run inv client
  = (Fatal, mkWorld [] ["[ERROR] PR number " ++ number
                        ++ " must be a valid positive number"] [] []).
Proof.
  intros Hbad. unfold run, main.
  rewrite (token_set _ Htoken), Hargs. run_step. cbn [negb].
  destruct (Atoi number) as [n|] eqn:Hn; [|reflexivity].
  specialize (Hbad n eq_refl).
  replace (n <=? 0) with true by (symmetry; apply Z.leb_le; exact Hbad).
  reflexivity.
Qed.

Hypothesis Hnumber : Atoi number = Some prNumber.
Hypothesis Hpos : 0 < prNumber.

Lemma rest_lookup_fails (e : string) :
  Get client [] (lookup owner repo prNumber) = inr e ->
  run inv client
  = (Fatal, mkWorld [lookup owner repo prNumber]
              ["[ERROR] Failed to get PR " ++ itoa prNumber ++ ": " ++ e]
              [] []).
Proof.
  intros Hq. unfold run, main.
  rewrite (token_set _ Htoken), Hargs. run_step. cbn [negb].
  rewrite Hnumber, (positive_number _ Hpos). run_step.
  fold (lookup owner repo prNumber). rewrite Hq. reflexivity.
Qed.

End RestPaths.

Section RestClose.
Import Go ClosePRRest.

Variables (inv : Invocation) (client : Client).
Variables (owner repo : string) (prNumber : Z) (pr : PullRequest).
Hypothesis Hres : resolves inv client owner repo prNumber pr.

Lemma rest_close_refused (e : string) :
  GetState pr = "open" ->
  (closeCommentFlag inv <> "" ->
   Do client [lookup owner repo prNumber]
      (Issues_CreateComment owner repo prNumber (closeCommentFlag inv))
   = None) ->
  Do client (lookup owner repo prNumber
             :: comment_calls inv owner repo prNumber)
     (edit owner repo prNumber pr) = Some e ->
  run inv client
  = (Fatal, mkWorld (upto_close inv owner repo prNumber pr)
              ["[ERROR] Failed to close PR " ++ itoa prNumber ++ ": " ++ e]
              [] []).
Proof.
  intros Hs Hc Hcl. unfold upto_close.
  rewrite (rest_after_lookup _ _ _ _ _ _ Hres).
  unfold workflow, GetHead, GetBase. cbn [set_State Head Base].
  unfold comment_calls, edit in *.
  apply String.eqb_eq in Hs. rewrite Hs. cbn [negb].
  destruct (String.eqb (closeCommentFlag inv) "") eqn:He; cbn [negb]; run_step.
  - rewrite Hcl. reflexivity.
  - rewrite Hc by (apply String.eqb_neq; exact He). rewrite Hcl. reflexivity.
Qed.

Hypothesis Hclosed : close_accepted inv client owner repo prNumber pr.

Lemma rest_closed_only :
  deleteBranchFlag inv = false ->
  run inv client
  = (Return, mkWorld (upto_close inv owner repo prNumber pr)
               ["[INFO] Successfully closed PR " ++ itoa prNumber] [] []).
Proof.
  intros Hflag. unfold upto_close. destruct Hclosed as (Hs & Hc & Hcl).
  rewrite (rest_after_lookup _ _ _ _ _ _ Hres).
  unfold workflow, GetHead, GetBase. cbn [set_State Head Base].
  unfold comment_calls, edit in *.
  apply String.eqb_eq in Hs. rewrite Hs, Hflag. cbn [negb].
  destruct (String.eqb (closeCommentFlag inv) "") eqn:He; cbn [negb]; run_step.
  - rewrite Hcl. reflexivity.
  - rewrite Hc by (apply String.eqb_neq; exact He). rewrite Hcl. reflexivity.
Qed.

Lemma rest_delete_outcome :
  deleteBranchFlag inv = true ->
  GetID (GetRepo (Head pr)) = GetID (GetRepo (Base pr)) ->
  let ref := GetRef (Head pr) in
  let delete := Git_DeleteRef owner repo ("heads/" ++ ref) in
  run inv client
  = match Do client (upto_close inv owner repo prNumber pr) delete with
    | None =>
        (Next tt,
         mkWorld (upto_close inv owner repo prNumber pr ++ [delete])
           ["[INFO] Successfully closed PR " ++ itoa prNumber;
            "[INFO] Successfully deleted ref " ++ ref] [] [])
    | Some e =>
        (Fatal,
         mkWorld (upto_close inv owner repo prNumber pr ++ [delete])
           ["[INFO] Successfully closed PR " ++ itoa prNumber;
            "[ERROR] Failed to delete ref " ++ ref ++ ": " ++ e] [] [])
    end.
Proof.
  intros Hflag Hid. cbn zeta. unfold upto_close.
  destruct Hclosed as (Hs & Hc & Hcl).
  rewrite (rest_after_lookup _ _ _ _ _ _ Hres).
  unfold workflow, GetHead, GetBase. cbn [set_State Head Base].
  unfold comment_calls, edit in *.
  apply String.eqb_eq in Hs. apply Z.eqb_eq in Hid.
  rewrite Hs, Hflag, Hid. cbn [negb].
  destruct (String.eqb (closeCommentFlag inv) "") eqn:He; cbn [negb]; run_step.
  - rewrite Hcl. destruct (Do client _ (Git_DeleteRef _ _ _)); reflexivity.
  - rewrite Hc by (apply String.eqb_neq; exact He). rewrite Hcl.
    destruct (Do client _ (Git_DeleteRef _ _ _)); reflexivity.
Qed.

End RestClose.

Section RestOrder.
Import Go ClosePRRest.

Variables (inv : Invocation) (client : Client).
Variables (owner repo : string) (prNumber : Z) (pr : PullRequest).
Hypothesis Hres : resolves inv client owner repo prNumber pr.

Lemma rest_calls_prefix :
  exists rest,
    (calls (snd (run inv client)) ++ rest)%list
    = planned inv owner repo prNumber pr.
Proof.
  rewrite (rest_after_lookup _ _ _ _ _ _ Hres).
  unfold workflow, planned, comment_calls, edit, GetHead, GetBase.
  cbn [set_State Head Base].
  run_all; eexists; cbn [app]; reflexivity.
Qed.

End RestOrder.

Lemma graphql_calls_head inv v4 owner repo prNumber pr :
  ClosePRGraphQL.resolves inv v4 owner repo prNumber pr ->
  exists rest,
    Go.calls (snd (ClosePRGraphQL.run inv v4))
    = ClosePRGraphQL.lookup owner repo prNumber :: rest.
Proof.
  intros Hres. rewrite (graphql_after_lookup _ _ _ _ _ _ Hres).
  unfold ClosePRGraphQL.workflow, ClosePRGraphQL.commentOnPR,
    ClosePRGraphQL.closePR, ClosePRGraphQL.deleteRef.
  run_all; eexists; reflexivity.
Qed.

Lemma rest_calls_head inv client owner repo prNumber pr :
  ClosePRRest.resolves inv client owner repo prNumber pr ->
  exists rest,
    Go.calls (snd (ClosePRRest.run inv client))
    = ClosePRRest.lookup owner repo prNumber :: rest.
Proof.
  intros Hres. rewrite (rest_after_lookup _ _ _ _ _ _ Hres).
  unfold ClosePRRest.workflow, ClosePRRest.GetHead, ClosePRRest.GetBase.
  run_all; eexists; reflexivity.
Qed.

Lemma graphql_first_call inv v4 :
  Go.calls (snd (ClosePRGraphQL.run inv v4)) <> [] ->
  ClosePRGraphQL.GITHUB_TOKEN inv <> ""
  /\ exists owner repo number n,
      ClosePRGraphQL.args inv = [owner; repo; number]
      /\ Go.Atoi number = Some n /\ 0 < n
      /\ hd_error (Go.calls (snd (ClosePRGraphQL.run inv v4)))
         = Some (ClosePRGraphQL.lookup owner repo n).
Proof.
  intros Hcalls.
  destruct (string_dec (ClosePRGraphQL.GITHUB_TOKEN inv) "") as [E|E].
  { exfalso. apply Hcalls. unfold ClosePRGraphQL.run, ClosePRGraphQL.main.
    rewrite E. reflexivity. }
  split; [exact E|].
  destruct (ClosePRGraphQL.args inv) as [|a [|b [|c [|d rest]]]] eqn:Ha;
    try (exfalso; apply Hcalls;
         unfold ClosePRGraphQL.run, ClosePRGraphQL.main;
         rewrite (token_set _ E), Ha; reflexivity).
  destruct (Go.Atoi c) as [n|] eqn:Hn.
  2:{ exfalso. apply Hcalls.
      rewrite (graphql_bad_number inv v4 a b c E Ha); [reflexivity|].
      intros n Hn'. congruence. }
  destruct (Z.leb_spec n 0) as [Hle|Hpos].
  { exfalso. apply Hcalls.
    rewrite (graphql_bad_number inv v4 a b c E Ha); [reflexivity|].
    intros n' Hn'. congruence. }
  exists a, b, c, n. repeat split; try assumption.
  destruct (ClosePRGraphQL.Query v4 [] (ClosePRGraphQL.lookup a b n))
    as [pr|e] eqn:Hq.
  - assert (Hres : ClosePRGraphQL.resolves inv v4 a b n pr).
    { repeat split; try assumption. exists c. split; assumption. }
    destruct (graphql_calls_head _ _ _ _ _ _ Hres) as (rest & ->).
    reflexivity.
  - rewrite (graphql_lookup_fails inv v4 a b c n E Ha Hn Hpos e Hq).
    reflexivity.
Qed.

Lemma rest_first_call inv client :
  Go.calls (snd (ClosePRRest.run inv client)) <> [] ->
  ClosePRRest.GITHUB_TOKEN inv <> ""
  /\ exists owner repo number n,
      ClosePRRest.args inv = [owner; repo; number]
      /\ Go.Atoi number = Some n /\ 0 < n
      /\ hd_error (Go.calls (snd (ClosePRRest.run inv client)))
         = Some (ClosePRRest.lookup owner repo n).
Proof.
  intros Hcalls.
  destruct (string_dec (ClosePRRest.GITHUB_TOKEN inv) "") as [E|E].
  { exfalso. apply Hcalls. unfold ClosePRRest.run, ClosePRRest.main.
    rewrite E. reflexivity. }
  split; [exact E|].
  destruct (ClosePRRest.args inv) as [|a [|b [|c [|d rest]]]] eqn:Ha;
    try (exfalso; apply Hcalls;
         unfold ClosePRRest.run, ClosePRRest.main;
         rewrite (token_set _ E), Ha; reflexivity).
  destruct (Go.Atoi c) as [n|] eqn:Hn.
  2:{ exfalso. apply Hcalls.
      rewrite (rest_bad_number inv client a b c E Ha); [reflexivity|].
      intros n Hn'. congruence. }
  destruct (Z.leb_spec n 0) as [Hle|Hpos].
  { exfalso. apply Hcalls.
    rewrite (rest_bad_number inv client a b c E Ha); [reflexivity|].
    intros n' Hn'. congruence. }
  exists a, b, c, n. repeat split; try assumption.
  destruct (ClosePRRest.Get client [] (ClosePRRest.lookup a b n))
    as [pr|e] eqn:Hq.
  - assert (Hres : ClosePRRest.resolves inv client a b n pr).
    { repeat split; try assumption. exists c. split; assumption. }
    destruct (rest_calls_head _ _ _ _ _ _ Hres) as (rest & ->).
    reflexivity.
  - rewrite (rest_lookup_fails inv client a b c n E Ha Hn Hpos e Hq).
    reflexivity.
Qed.

(** The requests of [workflow] do not depend on the number. *)
Lemma graphql_workflow_calls token comment delete strict args1 args2 v4
  (n n' : Z) pr w :
  Go.calls (snd (ClosePRGraphQL.workflow
                   (ClosePRGraphQL.mkInvocation token comment delete strict
                      args1) v4 n pr w))
  = Go.calls (snd (ClosePRGraphQL.workflow
                     (ClosePRGraphQL.mkInvocation token comment delete strict
                        args2) v4 n' pr w)).
Proof.
  unfold ClosePRGraphQL.workflow, ClosePRGraphQL.commentOnPR,
    ClosePRGraphQL.closePR, ClosePRGraphQL.deleteRef.
  cbn [ClosePRGraphQL.closeCommentFlag ClosePRGraphQL.deleteBranchFlag
       ClosePRGraphQL.strictFlag].
  run_all; reflexivity.
Qed.

Lemma to_int32_small (n : Z) :
  - 2 ^ 31 <= n < 2 ^ 31 -> Go.to_int32 n = n.
Proof.
  intros H. unfold Go.to_int32. rewrite Z.mod_small; lia.
Qed.

Lemma to_int32_wraps (n k : Z) :
  Go.to_int32 (n + k * 2 ^ 32) = Go.to_int32 n.
Proof.
  unfold Go.to_int32.
  replace (n + k * 2 ^ 32 + 2 ^ 31) with (n + 2 ^ 31 + k * 2 ^ 32) by lia.
  rewrite Z_mod_plus_full. reflexivity.
Qed.

(** * Further facts about the search listing *)

Section ListFailures.
Import Go ListPR.

Variable v4 : Client.
Variable query : string.

(** The loop on a remote side that fails after [pages]: the entries taken
    so far are dropped with the fatal exit. *)
Lemma loop_fails (pages : list Search) (e : string) :
  forall (fuel : nat) (cursor : option string) (acc : slice)
         (h : list Call) (lg er pr : list string),
    fails_after v4 query h cursor pages e ->
    (List.length pages < fuel)%nat ->
    loop fuel v4 (mkVariables query SearchTypeIssue cursor) acc
         (mkWorld h lg er pr)
    = (Fatal,
       mkWorld (h ++ requests query cursor pages
                  ++ [request query (cursor_after cursor pages)])
               (lg ++ ["[ERROR] Error querying Github API: " ++ e]) er pr).
Proof.
  induction pages as [|p rest IH]; intros fuel cursor acc h lg er pr Hs Hf.
  - destruct fuel as [|fuel]; [cbn in Hf; lia|].
    cbn [fails_after] in Hs.
    cbn [loop]. run_step. fold (request query cursor). rewrite Hs.
    reflexivity.
  - destruct fuel as [|fuel]; [cbn in Hf; lia|].
    destruct Hs as (Hq & Hn & Hrest).
    cbn [loop]. run_step. fold (request query cursor). rewrite Hq, Hn.
    cbn [negb ListPR.query ListPR.type].
    rewrite (IH fuel _ _ _ lg er pr Hrest) by (cbn in Hf; lia).
    cbn [requests cursor_after]. rewrite <- app_assoc. reflexivity.
Qed.

(** Whatever the remote side does, the loop only adds requests for the same
    query and type, in pages of 100, the first of them with the cursor it
    was started with. *)
Lemma loop_calls (fuel : nat) :
  forall (variables : Variables) (acc : slice) (w : World Call),
  exists added,
    calls (snd (loop fuel v4 variables acc w)) = (calls w ++ added)%list
    /\ Forall (fun c => exists cursor,
                   c = SearchQuery 100
                         (mkVariables (ListPR.query variables)
                            (type variables) cursor)) added
    /\ (List.length added <= fuel)%nat
    /\ (added <> [] ->
        hd_error added = Some (SearchQuery 100 variables)).
Proof.
  induction fuel as [|fuel IH]; intros variables acc [h lg er pr].
  - exists []. cbn. rewrite app_nil_r. repeat split; auto. congruence.
  - cbn [loop].
    cbv beta iota zeta delta [bind ret remote log_Fatal].
    cbn [calls logged errout printed].
    destruct (Query v4 h (SearchQuery 100 variables)) as [q|e];
      cbn [calls logged errout printed fst snd].
    + destruct (HasNextPage (PageInfo_ q)); cbn [negb].
      * match goal with
        | |- context [loop fuel v4 ?vars ?acc' ?w'] =>
            destruct (IH vars acc' w') as (added & Hc & Hall & Hlen & _);
            rewrite Hc
        end.
        cbn [calls ListPR.query type] in *.
        exists (SearchQuery 100 variables :: added).
        rewrite <- app_assoc. repeat split.
        -- constructor; [|exact Hall].
           exists (resultCursor variables). destruct variables; reflexivity.
        -- cbn. lia.
      * exists [SearchQuery 100 variables]. repeat split.
        -- constructor; [|constructor].
           exists (resultCursor variables). destruct variables; reflexivity.
        -- cbn. lia.
    + exists [SearchQuery 100 variables]. repeat split.
      * constructor; [|constructor].
        exists (resultCursor variables). destruct variables; reflexivity.
      * cbn. lia.
Qed.

End ListFailures.

Lemma has_verb_app (a b : string) :
  Go.has_verb (a ++ b) = Go.has_verb a || Go.has_verb b.
Proof.
  induction a as [|c a IH]; [reflexivity|].
  cbn [Go.has_verb]. change (String c a ++ b) with (String c (a ++ b)).
  cbn [Go.has_verb]. rewrite IH. apply orb_assoc.
Qed.

Lemma has_verb_encode_byte (c : ascii) :
  Go.has_verb (Json.encode_byte c) = Ascii.eqb c "%".
Proof.
  destruct c as [[] [] [] [] [] [] [] []]; vm_compute; reflexivity.
Qed.

Lemma has_verb_encode_string (s : string) :
  Go.has_verb (Json.encode_string s) = Go.has_verb s.
Proof.
  unfold Json.encode_string.
  change (String Json.dquote
            (Json.encode_bytes s ++ String Json.dquote EmptyString))
    with (String Json.dquote EmptyString
          ++ (Json.encode_bytes s ++ String Json.dquote EmptyString)).
  rewrite !has_verb_app.
  replace (Go.has_verb (String Json.dquote EmptyString)) with false
    by reflexivity.
  rewrite orb_false_r. cbn [orb].
  induction s as [|c s IH]; [reflexivity|].
  cbn [Json.encode_bytes Go.has_verb].
  rewrite has_verb_app, has_verb_encode_byte, IH. reflexivity.
Qed.

Lemma has_verb_sep_by (sep : string) (l : list string) :
  (exists x, In x l /\ Go.has_verb x = true) ->
  Go.has_verb (Json.sep_by sep l) = true.
Proof.
  induction l as [|y l IH]; intros (x & Hin & Hx); [destruct Hin|].
  destruct l as [|z l'].
  - destruct Hin as [<- | []]. exact Hx.
  - change (Json.sep_by sep (y :: z :: l'))
      with (y ++ sep ++ Json.sep_by sep (z :: l')).
    rewrite !has_verb_app.
    destruct Hin as [<- | Hin].
    + rewrite Hx. reflexivity.
    + rewrite IH by (exists x; split; assumption).
      rewrite !orb_true_r. reflexivity.
Qed.

Lemma has_verb_entry (p : ListPR.PullRequest) :
  ListPR.has_percent p = true ->
  Go.has_verb (Json.render (ListPR.PullRequest_json p)) = true.
Proof.
  intros Hp.
  change (Json.render (ListPR.PullRequest_json p))
    with ("{" ++ Json.sep_by ","
                   [Json.encode_string "Number" ++ ":"
                    ++ Go.itoa (ListPR.Number p);
                    Json.encode_string "Title" ++ ":"
                    ++ Json.encode_string (ListPR.Title p);
                    Json.encode_string "State" ++ ":"
                    ++ Json.encode_string (ListPR.State p);
                    Json.encode_string "URL" ++ ":"
                    ++ Json.encode_string (ListPR.URL p)]
              ++ "}").
  rewrite !has_verb_app.
  unfold ListPR.has_percent in Hp.
  rewrite has_verb_sep_by; [reflexivity|].
  apply orb_true_iff in Hp. destruct Hp as [Hp | Hp];
    [apply orb_true_iff in Hp; destruct Hp as [Hp | Hp]|].
  - eexists. split; [right; left; reflexivity|].
    rewrite !has_verb_app, !has_verb_encode_string, Hp.
    rewrite !orb_true_r. reflexivity.
  - eexists. split; [right; right; left; reflexivity|].
    rewrite !has_verb_app, !has_verb_encode_string, Hp.
    rewrite !orb_true_r. reflexivity.
  - eexists. split; [right; right; right; left; reflexivity|].
    rewrite !has_verb_app, !has_verb_encode_string, Hp.
    rewrite !orb_true_r. reflexivity.
Qed.

Lemma has_verb_output (l : list ListPR.PullRequest) :
  (exists p, In p l /\ ListPR.has_percent p = true) ->
  Go.has_verb (Json.render (ListPR.slice_json (ListPR.slice_of l))) = true.
Proof.
  intros (p & Hin & Hp). rewrite slice_of_spec.
  destruct l as [|x l]; [destruct Hin|].
  cbn [ListPR.slice_json].
  change (Json.render (Json.JArray (map ListPR.PullRequest_json (x :: l))))
    with ("[" ++ Json.sep_by ","
                   (map Json.render (map ListPR.PullRequest_json (x :: l)))
              ++ "]").
  rewrite !has_verb_app. rewrite has_verb_sep_by; [reflexivity|].
  exists (Json.render (ListPR.PullRequest_json p)). split.
  - apply in_map. apply in_map. exact Hin.
  - apply has_verb_entry. exact Hp.
Qed.

(** * Further statements about the runs *)

(** X1. Without a token in [GITHUB_TOKEN] every command stops at once:
    the fatal entry is its only output, no request is sent and the exit
    status is 1. *)
Theorem missing_token_is_fatal :
  (forall inv v4,
      ClosePRGraphQL.GITHUB_TOKEN inv = "" ->
      ClosePRGraphQL.run inv v4
      = (Go.Fatal,
         Go.mkWorld []
           ["[ERROR] Environment variable GITHUB_TOKEN must be set"] [] []))
  /\ (forall inv client,
         ClosePRRest.GITHUB_TOKEN inv = "" ->
         ClosePRRest.run inv client
         = (Go.Fatal,
            Go.mkWorld []
              ["[ERROR] Environment variable GITHUB_TOKEN must be set"]
              [] []))
  /\ (forall fuel inv v4,
         ListPR.GITHUB_TOKEN inv = "" ->
         ListPR.run fuel inv v4
         = Some (Go.Fatal,
                 Go.mkWorld []
                   ["[ERROR] Environment variable GITHUB_TOKEN must be set"]
                   [] []))
  /\ Go.status (@Go.Fatal unit) = 1.
Proof.
  repeat split.
  - intros inv v4 H. unfold ClosePRGraphQL.run, ClosePRGraphQL.main.
    rewrite H. reflexivity.
  - intros inv client H. unfold ClosePRRest.run, ClosePRRest.main.
    rewrite H. reflexivity.
  - intros fuel inv v4 H. unfold ListPR.run, ListPR.main.
    rewrite H. reflexivity.
Qed.

Lemma missing_token_witness :
  ClosePRGraphQL.run
    (ClosePRGraphQL.mkInvocation "" "" true false ["acme"; "widgets"; "42"])
    (Sample.graphql_remote (Sample.widget "OPEN" "R1") Sample.none_refused)
  = (Go.Fatal,
     Go.mkWorld []
       ["[ERROR] Environment variable GITHUB_TOKEN must be set"] [] [])
  /\ ListPR.run 3 (ListPR.mkInvocation "" ["is:pr"])
       (Sample.paged Sample.three_pages)
     = Some (Go.Fatal,
             Go.mkWorld []
               ["[ERROR] Environment variable GITHUB_TOKEN must be set"]
               [] []).
Proof.
  split.
  - apply (proj1 missing_token_is_fatal). reflexivity.
  - apply (proj1 (proj2 (proj2 missing_token_is_fatal))). reflexivity.
Defined.

(** X2. A close command sends a request only when the token is set, there
    are exactly three arguments and the third is a positive decimal
    number; the first request is then the lookup of that pull request. *)
Theorem no_request_without_valid_input :
  (forall inv v4,
      Go.calls (snd (ClosePRGraphQL.run inv v4)) <> [] ->
      ClosePRGraphQL.GITHUB_TOKEN inv <> ""
      /\ exists owner repo number n,
          ClosePRGraphQL.args inv = [owner; repo; number]
          /\ Go.Atoi number = Some n /\ 0 < n
          /\ hd_error (Go.calls (snd (ClosePRGraphQL.run inv v4)))
             = Some (ClosePRGraphQL.lookup owner repo n))
  /\ (forall inv client,
         Go.calls (snd (ClosePRRest.run inv client)) <> [] ->
         ClosePRRest.GITHUB_TOKEN inv <> ""
         /\ exists owner repo number n,
             ClosePRRest.args inv = [owner; repo; number]
             /\ Go.Atoi number = Some n /\ 0 < n
             /\ hd_error (Go.calls (snd (ClosePRRest.run inv client)))
                = Some (ClosePRRest.lookup owner repo n)).
Proof.
  split.
  - intros inv v4. apply graphql_first_call.
  - intros inv client. apply rest_first_call.
Qed.

Lemma no_request_without_valid_input_witness :
  ClosePRGraphQL.GITHUB_TOKEN (Sample.graphql_cli "" false false) <> ""
  /\ ClosePRRest.GITHUB_TOKEN (Sample.rest_cli "" false) <> "".
Proof.
  split.
  - apply (proj1 no_request_without_valid_input
             (Sample.graphql_cli "" false false)
             (Sample.graphql_remote (Sample.widget "OPEN" "R1")
                Sample.none_refused)).
    vm_compute. discriminate.
  - apply (proj2 no_request_without_valid_input
             (Sample.rest_cli "" false)
             (Sample.rest_remote (Sample.rest_widget "open" 1)
                Sample.rest_none_refused)).
    vm_compute. discriminate.
Defined.

(** X3. When the third argument is not a decimal number of the range of
    [int], or is zero or negative, a close command stops with the fatal
    entry that names the argument, before any request. *)
Theorem bad_number_is_fatal :
  (forall inv v4 owner repo number,
      ClosePRGraphQL.GITHUB_TOKEN inv <> "" ->
      ClosePRGraphQL.args inv = [owner; repo; number] ->
      (forall n, Go.Atoi number = Some n -> n <= 0) ->
      ClosePRGraphQL.run inv v4
      = (Go.Fatal,
         Go.mkWorld [] ["[ERROR] PR number " ++ number
                        ++ " must be a valid positive number"] [] []))
  /\ (forall inv client owner repo number,
         ClosePRRest.GITHUB_TOKEN inv <> "" ->
         ClosePRRest.args inv = [owner; repo; number] ->
         (forall n, Go.Atoi number = Some n -> n <= 0) ->
         ClosePRRest.run inv client
         = (Go.Fatal,
            Go.mkWorld [] ["[ERROR] PR number " ++ number
                           ++ " must be a valid positive number"] [] [])).
Proof.
  split.
  - intros inv v4 owner repo number. apply graphql_bad_number.
  - intros inv client owner repo number. apply rest_bad_number.
Qed.

Lemma bad_number_witness :
  ClosePRGraphQL.run
    (ClosePRGraphQL.mkInvocation "token" "" false false
       ["acme"; "widgets"; "4x2"])
    Sample.graphql_down
  = (Go.Fatal,
     Go.mkWorld [] ["[ERROR] PR number 4x2 must be a valid positive number"]
       [] [])
  /\ ClosePRRest.run
       (ClosePRRest.mkInvocation "token" "" false ["acme"; "widgets"; "-3"])
       Sample.rest_down
     = (Go.Fatal,
        Go.mkWorld [] ["[ERROR] PR number -3 must be a valid positive number"]
          [] []).
Proof.
  split.
  - apply (proj1 bad_number_is_fatal _ _ "acme" "widgets" "4x2").
    + discriminate.
    + reflexivity.
    + intros n H. vm_compute in H. discriminate.
  - apply (proj2 bad_number_is_fatal _ _ "acme" "widgets" "-3").
    + discriminate.
    + reflexivity.
    + intros n H. vm_compute in H. injection H as <-. lia.
Defined.

(** X4. When the lookup fails, a close command stops with the fatal entry
    that carries the error; the lookup is its only request. *)
Theorem lookup_failure_is_fatal :
  (forall inv v4 owner repo number n e,
      ClosePRGraphQL.GITHUB_TOKEN inv <> "" ->
      ClosePRGraphQL.args inv = [owner; repo; number] ->
      Go.Atoi number = Some n -> 0 < n ->
      ClosePRGraphQL.Query v4 [] (ClosePRGraphQL.lookup owner repo n)
      = inr e ->
      ClosePRGraphQL.run inv v4
      = (Go.Fatal,
         Go.mkWorld [ClosePRGraphQL.lookup owner repo n]
           ["[ERROR] Failed to get PR ID for PR " ++ Go.itoa n
            ++ ": " ++ e] [] []))
  /\ (forall inv client owner repo number n e,
         ClosePRRest.GITHUB_TOKEN inv <> "" ->
         ClosePRRest.args inv = [owner; repo; number] ->
         Go.Atoi number = Some n -> 0 < n ->
         ClosePRRest.Get client [] (ClosePRRest.lookup owner repo n)
         = inr e ->
         ClosePRRest.run inv client
         = (Go.Fatal,
            Go.mkWorld [ClosePRRest.lookup owner repo n]
              ["[ERROR] Failed to get PR " ++ Go.itoa n ++ ": " ++ e]
              [] [])).
Proof.
  split.
  - intros inv v4 owner repo number n e Ht Ha Hn Hpos Hq.
    apply (graphql_lookup_fails inv v4 owner repo number n Ht Ha Hn Hpos e Hq).
  - intros inv client owner repo number n e Ht Ha Hn Hpos Hq.
    apply (rest_lookup_fails inv client owner repo number n Ht Ha Hn Hpos
             e Hq).
Qed.

Lemma lookup_failure_witness :
  Go.status (fst (ClosePRGraphQL.run (Sample.graphql_cli "" true false)
                    Sample.graphql_down)) = 1
  /\ Go.status (fst (ClosePRRest.run (Sample.rest_cli "" true)
                       Sample.rest_down)) = 1.
Proof.
  split.
  - rewrite (proj1 lookup_failure_is_fatal
               (Sample.graphql_cli "" true false) Sample.graphql_down
               "acme" "widgets" "42" 42 "Could not resolve to a PullRequest");
      try reflexivity.
    discriminate.
  - rewrite (proj2 lookup_failure_is_fatal
               (Sample.rest_cli "" true) Sample.rest_down
               "acme" "widgets" "42" 42 "404 Not Found");
      try reflexivity.
    discriminate.
Defined.

(** X5. On an open pull request whose comment, if any, and close are
    accepted, and without [-delete-branch], a close command sends the
    lookup, the comment when one is given, and the close, logs that it has
    closed the pull request and returns with status 0. *)
Theorem close_without_delete :
  (forall inv v4 owner repo n pr,
      ClosePRGraphQL.resolves inv v4 owner repo n pr ->
      ClosePRGraphQL.close_accepted inv v4 owner repo n pr ->
      ClosePRGraphQL.deleteBranchFlag inv = false ->
      ClosePRGraphQL.run inv v4
      = (Go.Return,
         Go.mkWorld (ClosePRGraphQL.upto_close inv owner repo n pr)
           ["[INFO] Successfully closed PR " ++ Go.itoa n] [] []))
  /\ (forall inv client owner repo n pr,
         ClosePRRest.resolves inv client owner repo n pr ->
         ClosePRRest.close_accepted inv client owner repo n pr ->
         ClosePRRest.deleteBranchFlag inv = false ->
         ClosePRRest.run inv client
         = (Go.Return,
            Go.mkWorld (ClosePRRest.upto_close inv owner repo n pr)
              ["[INFO] Successfully closed PR " ++ Go.itoa n] [] [])).
Proof.
  split.
  - intros inv v4 owner repo n pr. apply graphql_closed_only.
  - intros inv client owner repo n pr. apply rest_closed_only.
Qed.

Lemma close_without_delete_witness :
  ClosePRGraphQL.run (Sample.graphql_cli "" false false)
    (Sample.graphql_remote (Sample.widget "OPEN" "R1") Sample.none_refused)
  = (Go.Return,
     Go.mkWorld [ClosePRGraphQL.lookup "acme" "widgets" 42;
                 ClosePRGraphQL.ClosePullRequest "PR_42"]
       ["[INFO] Successfully closed PR 42"] [] [])
  /\ Go.status
       (fst (ClosePRRest.run (Sample.rest_cli "Closing" false)
               (Sample.rest_remote (Sample.rest_widget "open" 1)
                  Sample.rest_none_refused))) = 0.
Proof.
  split.
  - apply (proj1 close_without_delete
             (Sample.graphql_cli "" false false)
             (Sample.graphql_remote (Sample.widget "OPEN" "R1")
                Sample.none_refused)
             "acme" "widgets" 42 (Sample.widget "OPEN" "R1")
             (sample_graphql_resolves _ _ _ _ _)).
    + repeat split; reflexivity.
    + reflexivity.
  - rewrite (proj2 close_without_delete
               (Sample.rest_cli "Closing" false)
               (Sample.rest_remote (Sample.rest_widget "open" 1)
                  Sample.rest_none_refused)
               "acme" "widgets" 42 (Sample.rest_widget "open" 1)
               (sample_rest_resolves _ _ _ _)).
    + reflexivity.
    + repeat split; reflexivity.
    + reflexivity.
Defined.

(** X6. When the close is refused, a close command stops with the fatal
    entry that carries the error.  The comment, when one was given, has
    been posted before and stays; nothing is sent after the close, also
    under [-delete-branch]. *)
Theorem close_refused_is_fatal :
  (forall inv v4 owner repo n pr e,
      ClosePRGraphQL.resolves inv v4 owner repo n pr ->
      ClosePRGraphQL.State pr = "OPEN" ->
      (ClosePRGraphQL.closeCommentFlag inv <> "" ->
       ClosePRGraphQL.Mutate v4 [ClosePRGraphQL.lookup owner repo n]
         (ClosePRGraphQL.AddComment (ClosePRGraphQL.ID pr)
            (ClosePRGraphQL.closeCommentFlag inv)) = None) ->
      ClosePRGraphQL.Mutate v4
        (ClosePRGraphQL.lookup owner repo n
         :: ClosePRGraphQL.comment_calls inv pr)
        (ClosePRGraphQL.ClosePullRequest (ClosePRGraphQL.ID pr)) = Some e ->
      ClosePRGraphQL.run inv v4
      = (Go.Fatal,
         Go.mkWorld (ClosePRGraphQL.upto_close inv owner repo n pr)
           ["[ERROR] Failed to close PR " ++ Go.itoa n ++ ": " ++ e] [] []))
  /\ (forall inv client owner repo n pr e,
         ClosePRRest.resolves inv client owner repo n pr ->
         ClosePRRest.GetState pr = "open" ->
         (ClosePRRest.closeCommentFlag inv <> "" ->
          ClosePRRest.Do client [ClosePRRest.lookup owner repo n]
            (ClosePRRest.Issues_CreateComment owner repo n
               (ClosePRRest.closeCommentFlag inv)) = None) ->
         ClosePRRest.Do client
           (ClosePRRest.lookup owner repo n
            :: ClosePRRest.comment_calls inv owner repo n)
           (ClosePRRest.edit owner repo n pr) = Some e ->
         ClosePRRest.run inv client
         = (Go.Fatal,
            Go.mkWorld (ClosePRRest.upto_close inv owner repo n pr)
              ["[ERROR] Failed to close PR " ++ Go.itoa n ++ ": " ++ e]
              [] [])).
Proof.
  split.
  - intros inv v4 owner repo n pr e Hres. apply graphql_close_refused.
    exact Hres.
  - intros inv client owner repo n pr e Hres. apply rest_close_refused.
    exact Hres.
Qed.

Lemma close_refused_witness :
  ClosePRGraphQL.run (Sample.graphql_cli "Closing" true false)
    (Sample.graphql_remote (Sample.widget "OPEN" "R1") Sample.close_refused)
  = (Go.Fatal,
     Go.mkWorld [ClosePRGraphQL.lookup "acme" "widgets" 42;
                 ClosePRGraphQL.AddComment "PR_42" "Closing";
                 ClosePRGraphQL.ClosePullRequest "PR_42"]
       ["[ERROR] Failed to close PR 42: forbidden"] [] [])
  /\ Go.status
       (fst (ClosePRRest.run (Sample.rest_cli "" true)
               (Sample.rest_remote (Sample.rest_widget "open" 1)
                  Sample.rest_edit_refused))) = 1.
Proof.
  split.
  - apply (proj1 close_refused_is_fatal
             (Sample.graphql_cli "Closing" true false)
             (Sample.graphql_remote (Sample.widget "OPEN" "R1")
                Sample.close_refused)
             "acme" "widgets" 42 (Sample.widget "OPEN" "R1") "forbidden"
             (sample_graphql_resolves _ _ _ _ _)); reflexivity.
  - rewrite (proj2 close_refused_is_fatal
               (Sample.rest_cli "" true)
               (Sample.rest_remote (Sample.rest_widget "open" 1)
                  Sample.rest_edit_refused)
               "acme" "widgets" 42 (Sample.rest_widget "open" 1) "forbidden"
               (sample_rest_resolves _ _ _ _)); reflexivity.
Defined.

(** X7. After an accepted close, under [-delete-branch] and with the head
    branch in the base repository, a close command sends the delete as its
    last request.  When it is accepted the run logs the deleted reference
    and ends with status 0; when it is refused the run stops with the fatal
    entry, the pull request staying closed. *)
Theorem delete_outcome :
  (forall inv v4 owner repo n pr,
      ClosePRGraphQL.resolves inv v4 owner repo n pr ->
      ClosePRGraphQL.close_accepted inv v4 owner repo n pr ->
      ClosePRGraphQL.deleteBranchFlag inv = true ->
      ClosePRGraphQL.ID_ (ClosePRGraphQL.HeadRepository pr)
      = ClosePRGraphQL.ID_ (ClosePRGraphQL.BaseRepository pr) ->
      let sent := ClosePRGraphQL.upto_close inv owner repo n pr in
      let head := ClosePRGraphQL.HeadRef pr in
      let delete := ClosePRGraphQL.DeleteRef (ClosePRGraphQL.ID_ head) in
      ClosePRGraphQL.run inv v4
      = match ClosePRGraphQL.Mutate v4 sent delete with
        | None =>
            (Go.Next tt,
             Go.mkWorld (sent ++ [delete])
               ["[INFO] Successfully closed PR " ++ Go.itoa n;
                "[INFO] Successfully deleted ref "
                ++ ClosePRGraphQL.Name head] [] [])
        | Some e =>
            (Go.Fatal,
             Go.mkWorld (sent ++ [delete])
               ["[INFO] Successfully closed PR " ++ Go.itoa n;
                "[ERROR] Failed to delete ref " ++ ClosePRGraphQL.Name head
                ++ ": " ++ e] [] [])
        end)
  /\ (forall inv client owner repo n pr,
         ClosePRRest.resolves inv client owner repo n pr ->
         ClosePRRest.close_accepted inv client owner repo n pr ->
         ClosePRRest.deleteBranchFlag inv = true ->
         ClosePRRest.GetID (ClosePRRest.GetRepo (ClosePRRest.Head pr))
         = ClosePRRest.GetID (ClosePRRest.GetRepo (ClosePRRest.Base pr)) ->
         let sent := ClosePRRest.upto_close inv owner repo n pr in
         let ref := ClosePRRest.GetRef (ClosePRRest.Head pr) in
         let delete := ClosePRRest.Git_DeleteRef owner repo ("heads/" ++ ref) in
         ClosePRRest.run inv client
         = match ClosePRRest.Do client sent delete with
           | None =>
               (Go.Next tt,
                Go.mkWorld (sent ++ [delete])
                  ["[INFO] Successfully closed PR " ++ Go.itoa n;
                   "[INFO] Successfully deleted ref " ++ ref] [] [])
           | Some e =>
               (Go.Fatal,
                Go.mkWorld (sent ++ [delete])
                  ["[INFO] Successfully closed PR " ++ Go.itoa n;
                   "[ERROR] Failed to delete ref " ++ ref ++ ": " ++ e]
                  [] [])
           end).
Proof.
  split.
  - intros inv v4 owner repo n pr Hres Hcl Hflag Hid.
    apply (graphql_delete_outcome _ _ _ _ _ _ Hres Hcl Hflag Hid).
  - intros inv client owner repo n pr Hres Hcl Hflag Hid.
    apply (rest_delete_outcome _ _ _ _ _ _ Hres Hcl Hflag Hid).
Qed.

Lemma delete_outcome_witness :
  ClosePRGraphQL.run (Sample.graphql_cli "" true false)
    (Sample.graphql_remote (Sample.widget "OPEN" "R1") Sample.delete_refused)
  = (Go.Fatal,
     Go.mkWorld [ClosePRGraphQL.lookup "acme" "widgets" 42;
                 ClosePRGraphQL.ClosePullRequest "PR_42";
                 ClosePRGraphQL.DeleteRef "REF_7"]
       ["[INFO] Successfully closed PR 42";
        "[ERROR] Failed to delete ref fix-widget: forbidden"] [] [])
  /\ ClosePRRest.run (Sample.rest_cli "" true)
       (Sample.rest_remote (Sample.rest_widget "open" 1)
          Sample.rest_none_refused)
     = (Go.Next tt,
        Go.mkWorld [ClosePRRest.lookup "acme" "widgets" 42;
                    ClosePRRest.edit "acme" "widgets" 42
                      (Sample.rest_widget "open" 1);
                    ClosePRRest.Git_DeleteRef "acme" "widgets"
                      "heads/fix-widget"]
          ["[INFO] Successfully closed PR 42";
           "[INFO] Successfully deleted ref fix-widget"] [] []).
Proof.
  split.
  - apply (proj1 delete_outcome
             (Sample.graphql_cli "" true false)
             (Sample.graphql_remote (Sample.widget "OPEN" "R1")
                Sample.delete_refused)
             "acme" "widgets" 42 (Sample.widget "OPEN" "R1")
             (sample_graphql_resolves _ _ _ _ _)).
    + repeat split; reflexivity.
    + reflexivity.
    + reflexivity.
  - apply (proj2 delete_outcome
             (Sample.rest_cli "" true)
             (Sample.rest_remote (Sample.rest_widget "open" 1)
                Sample.rest_none_refused)
             "acme" "widgets" 42 (Sample.rest_widget "open" 1)
             (sample_rest_resolves _ _ _ _)).
    + repeat split; reflexivity.
    + reflexivity.
    + reflexivity.
Defined.

(** X8. The requests of a run of a close command are always an initial
    part of the sequence lookup, comment (when one is given), close,
    delete: no request is sent twice or out of order, there are at most
    four of them, and every mutation is addressed to the pull request that
    the lookup returned. *)
Theorem calls_follow_plan :
  (forall inv v4 owner repo n pr,
      ClosePRGraphQL.resolves inv v4 owner repo n pr ->
      exists rest,
        (Go.calls (snd (ClosePRGraphQL.run inv v4)) ++ rest)%list
        = ClosePRGraphQL.planned inv owner repo n pr)
  /\ (forall inv client owner repo n pr,
         ClosePRRest.resolves inv client owner repo n pr ->
         exists rest,
           (Go.calls (snd (ClosePRRest.run inv client)) ++ rest)%list
           = ClosePRRest.planned inv owner repo n pr).
Proof.
  split.
  - intros inv v4 owner repo n pr. apply graphql_calls_prefix.
  - intros inv client owner repo n pr. apply rest_calls_prefix.
Qed.

Lemma calls_follow_plan_witness :
  (exists rest,
      (Go.calls (snd (ClosePRGraphQL.run
                        (Sample.graphql_cli "Closing" true false)
                        (Sample.graphql_remote (Sample.widget "OPEN" "R2")
                           Sample.none_refused))) ++ rest)%list
      = [ClosePRGraphQL.lookup "acme" "widgets" 42;
         ClosePRGraphQL.AddComment "PR_42" "Closing";
         ClosePRGraphQL.ClosePullRequest "PR_42";
         ClosePRGraphQL.DeleteRef "REF_7"])
  /\ (exists rest,
         (Go.calls (snd (ClosePRRest.run (Sample.rest_cli "" true)
                           (Sample.rest_remote (Sample.rest_widget "open" 1)
                              Sample.rest_edit_refused))) ++ rest)%list
         = ClosePRRest.planned (Sample.rest_cli "" true) "acme" "widgets" 42
             (Sample.rest_widget "open" 1)).
Proof.
  split.
  - apply (proj1 calls_follow_plan
             (Sample.graphql_cli "Closing" true false)
             (Sample.graphql_remote (Sample.widget "OPEN" "R2")
                Sample.none_refused)
             "acme" "widgets" 42 (Sample.widget "OPEN" "R2")
             (sample_graphql_resolves _ _ _ _ _)).
  - apply (proj2 calls_follow_plan
             (Sample.rest_cli "" true)
             (Sample.rest_remote (Sample.rest_widget "open" 1)
                Sample.rest_edit_refused)
             "acme" "widgets" 42 (Sample.rest_widget "open" 1)
             (sample_rest_resolves _ _ _ _)).
Defined.

(** X9. The GraphQL command sends the number as a 32-bit integer: a
    number below 2^31 is looked up as it is, and two numbers that differ
    by a multiple of 2^32 lead to the same requests, so the run acts on the
    same pull request for both. *)
Theorem lookup_number_wraps
  (token comment : string) (delete strict : bool)
  (owner repo s s' : string) (n k : Z) (v4 : ClosePRGraphQL.Client) :
  token <> "" ->
  Go.Atoi s = Some n ->
  Go.Atoi s' = Some (n + k * 2 ^ 32) ->
  0 < n -> 0 < n + k * 2 ^ 32 ->
  let run args :=
    ClosePRGraphQL.run
      (ClosePRGraphQL.mkInvocation token comment delete strict args) v4 in
  Go.calls (snd (run [owner; repo; s])) = Go.calls (snd (run [owner; repo; s']))
  /\ (n < 2 ^ 31 ->
      hd_error (Go.calls (snd (run [owner; repo; s])))
      = Some (ClosePRGraphQL.QueryPullRequest owner repo n)).
Proof.
  intros Ht Hs Hs' Hn Hn'. cbn zeta. split.
  - unfold ClosePRGraphQL.run, ClosePRGraphQL.main.
    cbn [ClosePRGraphQL.GITHUB_TOKEN ClosePRGraphQL.args].
    rewrite (token_set _ Ht). run_step. cbn [negb].
    rewrite Hs, Hs', (positive_number _ Hn), (positive_number _ Hn').
    unfold ClosePRGraphQL.getPRIDByNumber. run_step.
    rewrite to_int32_wraps.
    destruct (ClosePRGraphQL.Query v4 [] _) as [pr|e]; [|reflexivity].
    apply graphql_workflow_calls.
  - intros Hsmall.
    destruct (graphql_first_call
                (ClosePRGraphQL.mkInvocation token comment delete strict
                   [owner; repo; s]) v4)
      as (_ & o & r & num & m & Ha & Hm & _ & Hhd).
    + unfold ClosePRGraphQL.run, ClosePRGraphQL.main.
      cbn [ClosePRGraphQL.GITHUB_TOKEN ClosePRGraphQL.args].
      rewrite (token_set _ Ht). run_step. cbn [negb].
      rewrite Hs, (positive_number _ Hn).
      unfold ClosePRGraphQL.getPRIDByNumber, ClosePRGraphQL.workflow,
        ClosePRGraphQL.commentOnPR, ClosePRGraphQL.closePR,
        ClosePRGraphQL.deleteRef.
      run_step.
      destruct (ClosePRGraphQL.Query v4 [] _) as [pr|e];
        [run_all|]; discriminate.
    + cbn [ClosePRGraphQL.args] in Ha. injection Ha as <- <- <-.
      rewrite Hs in Hm. injection Hm as <-.
      rewrite Hhd. unfold ClosePRGraphQL.lookup.
      rewrite to_int32_small by lia. reflexivity.
Qed.

Lemma lookup_number_wraps_witness :
  let run args :=
    ClosePRGraphQL.run
      (ClosePRGraphQL.mkInvocation "token" "" false false args)
      (Sample.graphql_remote (Sample.widget "OPEN" "R1")
         Sample.none_refused) in
  Go.calls (snd (run ["acme"; "widgets"; "42"]))
  = Go.calls (snd (run ["acme"; "widgets"; "4294967338"])).
Proof.
  cbn zeta.
  apply (lookup_number_wraps "token" "" false false "acme" "widgets"
           "42" "4294967338" 42 1).
  - discriminate.
  - reflexivity.
  - reflexivity.
  - lia.
  - lia.
Defined.

(** X10. The REST command reads the identifier of a repository that is
    missing as 0.  After an accepted close and under [-delete-branch], a
    pull request whose head branch has no repository is therefore left
    alone, with a warning whose head name is empty, when the base
    repository has a non-zero identifier; when the base identifier reads as
    0 too, the two count as the same repository and the delete is sent. *)
Theorem rest_missing_repository
  (inv : ClosePRRest.Invocation) (client : ClosePRRest.Client)
  (owner repo : string) (n : Z) (pr : ClosePRRest.PullRequest) :
  ClosePRRest.resolves inv client owner repo n pr ->
  ClosePRRest.close_accepted inv client owner repo n pr ->
  ClosePRRest.deleteBranchFlag inv = true ->
  ClosePRRest.GetRepo (ClosePRRest.Head pr) = None ->
  let base := ClosePRRest.GetRepo (ClosePRRest.Base pr) in
  let w := snd (ClosePRRest.run inv client) in
  (ClosePRRest.GetID base <> 0 ->
   fst (ClosePRRest.run inv client) = Go.Return
   /\ last (Go.logged w) ""
      = "[WARN] PR head repository " ++ ""
        ++ " and base repository " ++ ClosePRRest.GetFullName base
        ++ " are different - not attempting to delete PR branch"
   /\ forall o r ref, ~ In (ClosePRRest.Git_DeleteRef o r ref) (Go.calls w))
  /\ (ClosePRRest.GetID base = 0 ->
      In (ClosePRRest.Git_DeleteRef owner repo
            ("heads/" ++ ClosePRRest.GetRef (ClosePRRest.Head pr)))
         (Go.calls w)).
Proof.
  intros Hres Hcl Hflag Hhead. cbn zeta. split.
  - intros Hbase.
    assert (Hid : ClosePRRest.GetID (ClosePRRest.GetRepo (ClosePRRest.Head pr))
                  <> ClosePRRest.GetID
                       (ClosePRRest.GetRepo (ClosePRRest.Base pr))).
    { rewrite Hhead. cbn [ClosePRRest.GetID]. congruence. }
    split; [|split].
    + rewrite (rest_fork_skip _ _ _ _ _ _ Hres Hcl Hflag Hid). reflexivity.
    + rewrite (rest_fork_skip _ _ _ _ _ _ Hres Hcl Hflag Hid).
      rewrite Hhead. reflexivity.
    + intros o r ref Hin.
      apply (rest_delete_iff _ _ _ _ _ _ Hres) in Hin.
      destruct Hin as (_ & _ & Heq & _). contradiction.
  - intros Hbase. apply (rest_delete_iff _ _ _ _ _ _ Hres).
    split; [exact Hcl|]. split; [exact Hflag|]. split.
    + rewrite Hhead, Hbase. reflexivity.
    + repeat split.
Qed.

Lemma rest_missing_repository_witness :
  fst (ClosePRRest.run (Sample.rest_cli "" true)
         (Sample.rest_remote Sample.rest_orphan Sample.rest_none_refused))
  = Go.Return
  /\ In (ClosePRRest.Git_DeleteRef "acme" "widgets" "heads/fix-widget")
        (Go.calls
           (snd (ClosePRRest.run (Sample.rest_cli "" true)
                   (Sample.rest_remote Sample.rest_bare
                      Sample.rest_none_refused)))).
Proof.
  split.
  - apply (rest_missing_repository (Sample.rest_cli "" true)
             (Sample.rest_remote Sample.rest_orphan Sample.rest_none_refused)
             "acme" "widgets" 42 Sample.rest_orphan
             (sample_rest_resolves _ _ _ _)).
    + repeat split; reflexivity.
    + reflexivity.
    + reflexivity.
    + discriminate.
  - apply (rest_missing_repository (Sample.rest_cli "" true)
             (Sample.rest_remote Sample.rest_bare Sample.rest_none_refused)
             "acme" "widgets" 42 Sample.rest_bare
             (sample_rest_resolves _ _ _ _)).
    + repeat split; reflexivity.
    + reflexivity.
    + reflexivity.
    + reflexivity.
Defined.

(** X11. When a request of the search fails, after any number of pages,
    the listing stops with the fatal entry that carries the error: the
    entries of the pages taken so far are dropped and nothing is
    printed. *)
Theorem search_error_is_fatal
  (inv : ListPR.Invocation) (v4 : ListPR.Client) (query : string)
  (pages : list ListPR.Search) (e : string) :
  ListPR.GITHUB_TOKEN inv <> "" ->
  ListPR.args inv = [query] ->
  ListPR.fails_after v4 query [] None pages e ->
  forall fuel,
    (List.length pages < fuel)%nat ->
    ListPR.run fuel inv v4
    = Some (Go.Fatal,
            Go.mkWorld
              (ListPR.requests query None pages
               ++ [ListPR.request query (ListPR.cursor_after None pages)])
              ["[ERROR] Error querying Github API: " ++ e] [] []).
Proof.
  intros Ht Ha Hf fuel Hfuel. unfold ListPR.run, ListPR.main.
  rewrite (token_set _ Ht), Ha. run_step. cbn [negb].
  rewrite (loop_fails v4 query pages e fuel None None [] [] [] [] Hf Hfuel).
  reflexivity.
Qed.

Lemma search_error_witness :
  ListPR.run 3 (Sample.list_cli ["is:pr widget"])
    (Sample.paged (firstn 2 Sample.three_pages))
  = Some (Go.Fatal,
          Go.mkWorld
            [ListPR.request "is:pr widget" None;
             ListPR.request "is:pr widget" (Some "Y3Vyc29yOjEwMA==");
             ListPR.request "is:pr widget" (Some "Y3Vyc29yOjIwMA==")]
            ["[ERROR] Error querying Github API: no such page"] [] []).
Proof.
  apply (search_error_is_fatal (Sample.list_cli ["is:pr widget"])
           (Sample.paged (firstn 2 Sample.three_pages)) "is:pr widget"
           (firstn 2 Sample.three_pages) "no such page").
  - discriminate.
  - reflexivity.
  - repeat split; reflexivity.
  - cbn. lia.
Defined.

(** X12. Whatever the remote side answers, every request of the listing
    asks for the query given as the argument, with the search type
    [ISSUE], in pages of 100; requests are sent only when the token is
    set and there is exactly one argument. *)
Theorem search_requests_uniform
  (fuel : nat) (inv : ListPR.Invocation) (v4 : ListPR.Client)
  (c : ListPR.Call) :
  In c (Go.calls (snd (ListPR.main fuel inv v4 Go.start))) ->
  ListPR.GITHUB_TOKEN inv <> ""
  /\ exists query cursor,
      ListPR.args inv = [query]
      /\ c = ListPR.SearchQuery 100
               (ListPR.mkVariables query ListPR.SearchTypeIssue cursor).
Proof.
  intros Hin.
  destruct (string_dec (ListPR.GITHUB_TOKEN inv) "") as [E|E].
  { exfalso. unfold ListPR.main in Hin. rewrite E in Hin. exact Hin. }
  split; [exact E|].
  unfold ListPR.main in Hin. rewrite (token_set _ E) in Hin.
  destruct (ListPR.args inv) as [|q [|q' rest]] eqn:Ha;
    try (exfalso; exact Hin).
  exists q.
  revert Hin. run_step. cbn [negb].
  destruct (loop_calls v4 fuel
              (ListPR.mkVariables q ListPR.SearchTypeIssue None) None
              (Go.mkWorld [] [] [] []))
    as (added & Hc & Hall & _).
  destruct (ListPR.loop fuel v4 _ None _) as [[[r|]| |] [h lg er pr]];
    cbn [snd Go.calls] in Hc |- *; intros Hin.
  - unfold ListPR.json_Marshal in Hin. revert Hin. run_step. intros Hin.
    rewrite Hc in Hin. cbn [app] in Hin.
    rewrite Forall_forall in Hall. destruct (Hall c Hin) as (cursor & ->).
    exists cursor. split; reflexivity.
  - revert Hin. run_step. intros Hin. rewrite Hc in Hin.
    rewrite Forall_forall in Hall. destruct (Hall c Hin) as (cursor & ->).
    exists cursor. split; reflexivity.
  - rewrite Hc in Hin.
    rewrite Forall_forall in Hall. destruct (Hall c Hin) as (cursor & ->).
    exists cursor. split; reflexivity.
  - rewrite Hc in Hin.
    rewrite Forall_forall in Hall. destruct (Hall c Hin) as (cursor & ->).
    exists cursor. split; reflexivity.
Qed.

Lemma search_requests_uniform_witness :
  exists query cursor,
    ListPR.args (Sample.list_cli ["is:pr widget"]) = [query]
    /\ ListPR.request "is:pr widget" (Some "Y3Vyc29yOjEwMA==")
       = ListPR.SearchQuery 100
           (ListPR.mkVariables query ListPR.SearchTypeIssue cursor).
Proof.
  apply (search_requests_uniform 3 (Sample.list_cli ["is:pr widget"])
           (Sample.paged Sample.three_pages)).
  vm_compute. right. left. reflexivity.
Defined.

(** X13. The encoded list is handed to [fmt.Printf] as its format string,
    not as an operand.  When the title, the state or the URL of an entry
    has a percent sign, the format has one too, and the text is then
    subject to the expansion of verbs. *)
Theorem percent_reaches_format
  (inv : ListPR.Invocation) (v4 : ListPR.Client) (query : string)
  (pages : list ListPR.Search) :
  ListPR.GITHUB_TOKEN inv <> "" ->
  ListPR.args inv = [query] ->
  ListPR.serves v4 query [] None pages ->
  (exists p, In p (ListPR.collected pages) /\ ListPR.has_percent p = true) ->
  forall fuel,
    (List.length pages <= fuel)%nat ->
    exists w format,
      ListPR.run fuel inv v4 = Some (Go.Next tt, w)
      /\ Go.printed w = [format]
      /\ format
         = Json.render (ListPR.slice_json
                          (ListPR.slice_of (ListPR.collected pages)))
      /\ Go.has_verb format = true
      /\ Go.Printf_text format = None.
Proof.
  intros Ht Ha Hs Hp fuel Hf.
  eexists. eexists. split.
  - apply (list_run_serves v4 query inv Ht Ha pages fuel Hs Hf).
  - split; [reflexivity|]. split; [reflexivity|].
    pose proof (has_verb_output _ Hp) as Hv.
    split; [exact Hv|].
    unfold Go.Printf_text. rewrite Hv. reflexivity.
Qed.

Lemma percent_page_served :
  ListPR.serves (Sample.paged Sample.percent_page) "is:pr speed" [] None
    Sample.percent_page.
Proof. split; reflexivity. Defined.

Lemma percent_reaches_format_witness :
  exists w format,
    ListPR.run 1 (Sample.list_cli ["is:pr speed"])
      (Sample.paged Sample.percent_page) = Some (Go.Next tt, w)
    /\ Go.printed w = [format]
    /\ Go.has_verb format = true.
Proof.
  destruct (percent_reaches_format (Sample.list_cli ["is:pr speed"])
              (Sample.paged Sample.percent_page) "is:pr speed"
              Sample.percent_page) with (fuel := 1%nat)
    as (w & format & Hrun & Hp & _ & Hv & _).
  - discriminate.
  - reflexivity.
  - exact percent_page_served.
  - eexists. split; [left; reflexivity | reflexivity].
  - cbn. lia.
  - exists w, format. repeat split; assumption.
Defined.
